(** * JsonValidator: a shallow embedding of [src/index.ts]

    The validator walks a schema node and a document value side by side and
    pushes a [ValidationError] on [this._errors] for every failed check.
    Schema nodes and documents are both plain JavaScript data, so one type of
    values serves for both.  Methods of the class become functions in a small
    monad that threads [this._errors] and carries an abrupt completion (the
    [SyntaxError] of [new RegExp], the [TypeError] of a failed conversion to
    a string); the recursion of [_isValid] through
    [_matchesItems] and [_matchesProperties] is tied with a fuel argument,
    and [validate] supplies enough of it. *)

From Stdlib Require Import String Ascii List ZArith Bool Arith Lia.
From Stdlib Require Import SpecFloat DecimalString.
Import ListNotations.

Local Open Scope list_scope.
Local Open Scope string_scope.

Set Warnings "-register-all".

(** ** Values *)

(** The data the validator is run on: [undefined] and what [JSON.parse]
    gives, that is primitives, arrays and plain objects.  Arrays and objects
    carry the address of the heap cell that holds them, since [===] on them
    is identity of reference.  The members of an object are its own members,
    listed in the order of [Object.keys]; members and elements hold data, no
    functions.  [VInherited name] is what a read of [name] through the
    prototype chain of a plain object gives when the object has no such
    member of its own: the member [name] of [Object.prototype], a native
    function, or, for [__proto__], [Object.prototype] itself. *)
Inductive value : Type :=
| VUndefined
| VNull
| VBoolean (b : bool)
| VNumber (n : spec_float)
| VString (s : string)
| VArray (addr : nat) (elems : list value)
| VObject (addr : nat) (members : list (string * value))
| VInherited (name : string).

(** The names of the own members of [Object.prototype]. *)
Definition Object_prototype_names : list string :=
  ["constructor"; "__defineGetter__"; "__defineSetter__"; "hasOwnProperty";
   "__lookupGetter__"; "__lookupSetter__"; "isPrototypeOf";
   "propertyIsEnumerable"; "toString"; "valueOf"; "__proto__";
   "toLocaleString"].

Definition Object_prototype_has (key : string) : bool :=
  existsb (String.eqb key) Object_prototype_names.

(** The IEEE double of an integer literal. *)
Definition number_of_Z (z : Z) : spec_float := binary_normalize 53 1024 z 0 false.

(** [export type Schema_Type = "undefined" | "boolean" | ... | "null"] *)
Definition Schema_Type : list string :=
  ["undefined"; "boolean"; "object"; "array"; "string"; "number"; "integer"; "null"].

(** [function getType(value: any): Schema_Type].  [typeof] is ["object"] for
    arrays, plain objects and [Object.prototype]; the last [return "string"]
    takes what is left, the native functions among it. *)
Definition getType (v : value) : string :=
  match v with
  | VUndefined => "undefined"
  | VNull => "null"
  | VArray _ _ => "array"
  | VObject _ _ => "object"
  | VBoolean _ => "boolean"
  | VNumber _ => "number"
  | VString _ => "string"
  | VInherited name => if name =? "__proto__" then "object" else "string"
  end.

(** ** The operators and built-ins the methods use *)

(** [a === b] *)
Definition strict_equals (a b : value) : bool :=
  match a, b with
  | VUndefined, VUndefined => true
  | VNull, VNull => true
  | VBoolean x, VBoolean y => Bool.eqb x y
  | VNumber x, VNumber y => SFeqb x y
  | VString x, VString y => String.eqb x y
  | VArray x _, VArray y _ => Nat.eqb x y
  | VObject x _, VObject y _ => Nat.eqb x y
  | VInherited x, VInherited y => String.eqb x y
  | _, _ => false
  end.

(** [!!v] *)
Definition truthy (v : value) : bool :=
  match v with
  | VUndefined | VNull => false
  | VBoolean b => b
  | VNumber (S754_zero _) | VNumber S754_nan => false
  | VNumber _ => true
  | VString s => negb (String.eqb s "")
  | VArray _ _ | VObject _ _ | VInherited _ => true
  end.

(** [Array.prototype.indexOf], [-1] when absent. *)
Fixpoint indexOf_from (l : list value) (x : value) (i : Z) : Z :=
  match l with
  | [] => (-1)%Z
  | y :: rest => if strict_equals y x then i else indexOf_from rest x (i + 1)%Z
  end.

Definition indexOf (l : list value) (x : value) : Z := indexOf_from l x 0%Z.

(** The elements of an array value ([schema as any[]]). *)
Definition elements (v : value) : list value :=
  match v with
  | VArray _ elems => elems
  | _ => []
  end.

(** The own member [key] among [members], [undefined] when there is none. *)
Fixpoint lookup (members : list (string * value)) (key : string) : value :=
  match members with
  | [] => VUndefined
  | (k, v) :: rest => if String.eqb k key then v else lookup rest key
  end.

(** [Object.prototype.hasOwnProperty] *)
Definition has_own (members : list (string * value)) (key : string) : bool :=
  existsb (fun member => String.eqb (fst member) key) members.

(** What a plain object inherits at [key]. *)
Definition inherited (key : string) : value :=
  if Object_prototype_has key then VInherited key else VUndefined.

(** [o[key]] where the code reads members, that is on a value [getType]
    classifies as an object: the own member, or else the member the object
    inherits from [Object.prototype], or else [undefined].  On
    [Object.prototype] itself the members are its own, and [__proto__] is
    [null]. *)
Definition get (o : value) (key : string) : value :=
  match o with
  | VObject _ members =>
      if has_own members key then lookup members key else inherited key
  | VInherited name =>
      if name =? "__proto__"
      then if key =? "__proto__" then VNull else inherited key
      else VUndefined
  | _ => VUndefined
  end.

(** [Object.keys(o)] *)
Definition Object_keys (o : value) : list string :=
  match o with
  | VObject _ members => map fst members
  | _ => []
  end.

(** [typeof v] *)
Definition typeof (v : value) : string :=
  match v with
  | VUndefined => "undefined"
  | VBoolean _ => "boolean"
  | VNumber _ => "number"
  | VString _ => "string"
  | VNull | VArray _ _ | VObject _ _ => "object"
  | VInherited name => if name =? "__proto__" then "object" else "function"
  end.

(** The decimal text of an array index, as a template literal prints it. *)
Definition index_text (index : nat) : string :=
  NilEmpty.string_of_uint (Nat.to_uint index).

(** ** Errors and the state of a validation run *)

(** [export class ValidationError]: every member but [instancePath] is
    optional. *)
Record ValidationError : Type := {
  keyword : option string;
  instancePath : string;
  schemaPath : option string;
  params : option value;
  propertyName : option string;
  message : option string;
  schema : option value;
  parentSchema : option value;
  data : option value
}.

(** The object literal [{ keyword, instancePath, message }], the only shape
    of error the validator builds. *)
Definition error_literal (kw path msg : string) : ValidationError :=
  {| keyword := Some kw; instancePath := path; schemaPath := None;
     params := None; propertyName := None; message := Some msg;
     schema := None; parentSchema := None; data := None |}.

(** How a call completes: normally with a value, or abruptly with the
    [SyntaxError] of [new RegExp] or with the [TypeError] of a conversion to
    a string that finds no primitive.  [Out_of_fuel] is the model's own: the
    recursion bound was reached. *)
Inductive completion (A : Type) : Type :=
| Normal (a : A)
| Throw_SyntaxError
| Throw_TypeError
| Out_of_fuel.

Arguments Normal {A} a.
Arguments Throw_SyntaxError {A}.
Arguments Throw_TypeError {A}.
Arguments Out_of_fuel {A}.

(** A method body: from [this._errors] before the call to the completion and
    [this._errors] after it. *)
Definition M (A : Type) : Type :=
  list ValidationError -> completion A * list ValidationError.

Definition ret {A : Type} (a : A) : M A := fun errors => (Normal a, errors).

Definition bind {A B : Type} (m : M A) (k : A -> M B) : M B :=
  fun errors =>
    match m errors with
    | (Normal a, errors') => k a errors'
    | (Throw_SyntaxError, errors') => (Throw_SyntaxError, errors')
    | (Throw_TypeError, errors') => (Throw_TypeError, errors')
    | (Out_of_fuel, errors') => (Out_of_fuel, errors')
    end.

Definition throw_SyntaxError {A : Type} : M A :=
  fun errors => (Throw_SyntaxError, errors).

Definition throw_TypeError {A : Type} : M A :=
  fun errors => (Throw_TypeError, errors).

(** The result of a conversion to a string, [None] being its [TypeError]. *)
Definition converted (text : option string) : M string :=
  match text with
  | Some s => ret s
  | None => throw_TypeError
  end.

Definition out_of_fuel {A : Type} : M A := fun errors => (Out_of_fuel, errors).

Notation "x <- m ;; k" := (bind m (fun x => k))
  (at level 100, m at next level, right associativity).
Notation "m ;; k" := (bind m (fun _ => k))
  (at level 100, right associativity).

(** [Array.prototype.every] with an effectful callback: ascending indices,
    and the first [false] ends the loop. *)
Fixpoint every_from {A : Type} (callback : A -> nat -> M bool)
    (l : list A) (index : nat) : M bool :=
  match l with
  | [] => ret true
  | x :: rest =>
      ok <- callback x index ;;
      if ok then every_from callback rest (S index) else ret false
  end.

Definition every {A : Type} (callback : A -> nat -> M bool) (l : list A) : M bool :=
  every_from callback l 0.

(** ** A host for the examples *)

(** [Number.prototype.toString], [Function.prototype.toString] and [RegExp]
    for the examples: integers are printed in plain decimal, a native
    function by its name, and a pattern is read as literal text.  The
    examples print no other number and use no pattern with a special
    character. *)
Module Sample.

Definition Number_toString (n : spec_float) : string :=
  match n with
  | S754_zero _ => "0"
  | S754_infinity false => "Infinity"
  | S754_infinity true => "-Infinity"
  | S754_nan => "NaN"
  | S754_finite sign m e =>
      let magnitude :=
        if (0 <=? e)%Z then (Z.pos m * 2 ^ e)%Z else (Z.pos m / 2 ^ (- e))%Z in
      (if sign then "-" else "")
      ++ NilEmpty.string_of_uint (N.to_uint (Z.to_N magnitude))
  end.

Definition Function_toString (name : string) : string :=
  "function " ++ name ++ "() { [native code] }".

Definition RegExp_test (source subject : string) : option bool :=
  match String.index 0 source subject with
  | Some _ => Some true
  | None => Some false
  end.

Definition number (z : Z) : value := VNumber (number_of_Z z).

End Sample.

(** ** The host and the methods *)

Section Host.

(** What the host engine provides and the repository does not define:
    [Number.prototype.toString], the text [Function.prototype.toString]
    gives for the native function of a name, the construction and [test]
    of a [RegExp] from its source text ([None] when [new RegExp] throws a
    [SyntaxError], which does not depend on the string tested), and
    [JSON.parse] ([None] when it throws). *)
Variable Number_toString : spec_float -> string.
Variable Function_toString : string -> string.
Variable RegExp_test : string -> string -> option bool.
Variable JSON_parse : string -> option value.

(** Whether [new RegExp(source)] returns. *)
Definition RegExp_accepts (source : string) : bool :=
  match RegExp_test source "" with
  | Some _ => true
  | None => false
  end.

(** [String(v)], which is also what a template literal and [join] apply;
    [None] is the [TypeError] of an object that gives no primitive: a plain
    object with a member [toString] of its own, which holds data and cannot
    be called, while the inherited [valueOf] returns the object. *)
Fixpoint ToString (v : value) : option string :=
  match v with
  | VUndefined => Some "undefined"
  | VNull => Some "null"
  | VBoolean true => Some "true"
  | VBoolean false => Some "false"
  | VNumber n => Some (Number_toString n)
  | VString s => Some s
  | VArray _ elems =>
      (fix join_commas (l : list value) : option string :=
         match l with
         | [] => Some ""
         | x :: rest =>
             match (match x with
                    | VUndefined | VNull => Some ""
                    | _ => ToString x
                    end) with
             | None => None
             | Some item =>
                 match rest with
                 | [] => Some item
                 | _ :: _ =>
                     match join_commas rest with
                     | None => None
                     | Some others => Some (item ++ "," ++ others)
                     end
                 end
             end
         end) elems
  | VObject _ members =>
      if has_own members "toString" then None else Some "[object Object]"
  | VInherited name =>
      if name =? "__proto__" then Some "[object Object]"
      else Some (Function_toString name)
  end.

(** [Array.prototype.join]: [undefined] and [null] print as nothing. *)
Definition join_item (x : value) : option string :=
  match x with
  | VUndefined | VNull => Some ""
  | _ => ToString x
  end.

Fixpoint join (l : list value) (separator : string) : option string :=
  match l with
  | [] => Some ""
  | x :: rest =>
      match join_item x with
      | None => None
      | Some item =>
          match rest with
          | [] => Some item
          | _ :: _ =>
              match join rest separator with
              | None => None
              | Some others => Some (item ++ separator ++ others)
              end
          end
      end
  end.

(** ** The methods of [JsonValidator] *)

(** [protected _logError(error)] *)
Definition _logError (error : ValidationError) : M unit :=
  fun errors => (Normal tt, (errors ++ [error])%list).

(** [private compareTypes(schema, document)] *)
Definition compareTypes (schema document : value) : string * string :=
  (getType schema, getType document).

(** [protected _matchesType(schema, document, path)].  In the branch
    [schemaType == "string"] the schema is a string, and [docType != schema]
    compares two strings, or it is a native function, whose text is no type
    tag, and [docType != schema] holds. *)
Definition _matchesType (schema document : value) (path : string) : M bool :=
  let '(schemaType, docType) := compareTypes schema document in
  if negb (schemaType =? "undefined") then
    if schemaType =? "string" then
      if negb (strict_equals (VString docType) schema) then
        _logError (error_literal "type" path
                     ("must be " ++ schemaType ++ ", but it was " ++ docType)) ;;
        ret false
      else ret true
    else if schemaType =? "array" then
      let allowedTypes := elements schema in
      if (indexOf allowedTypes (VString docType) <? 0)%Z then
        oneOfType <- converted (join allowedTypes " | ") ;;
        _logError (error_literal "type" path
                     ("must be " ++ oneOfType ++ ", but it was " ++ docType)) ;;
        ret false
      else ret true
    else ret true
  else ret true.

(** [protected _matchesEnum(schema, document, path)] *)
Definition _matchesEnum (schema document : value) (path : string) : M bool :=
  if getType schema =? "array" then
    if (indexOf (elements schema) document <? 0)%Z then
      enumVals <- converted (join (elements schema) ", ") ;;
      text <- converted (ToString document) ;;
      _logError (error_literal "value" path
                   ("value must be in enum " ++ enumVals ++ ", but it was "
                    ++ text)) ;;
      ret false
    else ret true
  else ret true.

(** [protected _matchesPattern(schema, document, path)]: [&&] builds the
    [RegExp] only when the schema is defined; [new RegExp(schema)] converts
    the schema and reads the source before [String(document)] is
    evaluated. *)
Definition _matchesPattern (schema document : value) (path : string) : M bool :=
  let '(schemaType, _) := compareTypes schema document in
  if negb (schemaType =? "undefined") then
    source <- converted (ToString schema) ;;
    if negb (RegExp_accepts source) then throw_SyntaxError else
    subject <- converted (ToString document) ;;
    match RegExp_test source subject with
    | None => throw_SyntaxError
    | Some matched =>
        if negb matched then
          _logError (error_literal "value" path
                       ("value " ++ subject ++ " did not match  " ++ source)) ;;
          ret false
        else ret true
    end
  else ret true.

Section Recursion.

(** [this._isValid], as the methods below call it. *)
Variable _isValid : value -> value -> string -> M bool.

(** The callback of [every] in [_matchesItems]. *)
Definition items_callback (schema : value) (schemaType path : string)
    (subItem : value) (index : nat) : M bool :=
  if (schemaType =? "string") || (schemaType =? "array") then
    _matchesType schema subItem (path ++ "[" ++ index_text index ++ "]")
  else if schemaType =? "object" then
    _isValid schema subItem (path ++ "[" ++ index_text index ++ "]")
  else ret true.

(** [protected _matchesItems(schema, document, path)] *)
Definition _matchesItems (schema document : value) (path : string) : M bool :=
  let '(schemaType, docType) := compareTypes schema document in
  if negb (schemaType =? "undefined") then
    if negb (docType =? "array") then
      _logError (error_literal "schema" path
                   "must be an array, but schema defines items.") ;;
      ret false
    else every (items_callback schema schemaType path) (elements document)
  else ret true.

(** The callback of [Object.keys(schema).every] in [_matchesProperties]. *)
Definition properties_callback (schema document : value) (path : string)
    (key : string) (_ : nat) : M bool :=
  _isValid (get schema key) (get document key) (path ++ "." ++ key).

(** [protected _matchesProperties(schema, document, path)] *)
Definition _matchesProperties (schema document : value) (path : string) : M bool :=
  let '(schemaType, docType) := compareTypes schema document in
  if negb (schemaType =? "undefined") then
    if negb (docType =? "object") then
      _logError (error_literal "schema" "path"
                   "must be an object, but schema defines properties.") ;;
      ret false
    else if (schemaType =? "string") || (schemaType =? "array") then
      every (fun key _ =>
               _matchesType schema (get document key) (path ++ "." ++ key))
            (Object_keys document)
    else if schemaType =? "object" then
      every (properties_callback schema document path) (Object_keys schema)
    else ret true
  else ret true.

(** The body of [protected _isValid(schema, document, path)]. *)
Definition _isValid_body (schema document : value) (path : string) : M bool :=
  let '(schemaType, _) := compareTypes schema document in
  if (schemaType =? "string") || (schemaType =? "array") then
    ok <- _matchesType schema document path ;;
    if negb ok then ret false else ret true
  else if schemaType =? "object" then
    ok <- _matchesType (get schema "type") document path ;;
    if negb ok
       && (negb (truthy (get schema "optional"))
           || negb (typeof document =? "undefined"))
    then ret false
    else
      ok <- _matchesEnum (get schema "enum") document path ;;
      if negb ok then ret false else
      ok <- _matchesPattern (get schema "matches") document path ;;
      if negb ok then ret false else
      ok <- _matchesItems (get schema "items") document path ;;
      if negb ok then ret false else
      ok <- _matchesProperties (get schema "properties") document path ;;
      if negb ok then ret false else
      ret true
  else ret true.

End Recursion.

(** [_isValid] calls itself on [schema.items] and on the members of
    [schema.properties]; [fuel] bounds the depth of these calls. *)
Fixpoint _isValid (fuel : nat) (schema document : value) (path : string) : M bool :=
  match fuel with
  | O => out_of_fuel
  | S fuel' => _isValid_body (_isValid fuel') schema document path
  end.

(** How deep objects are nested in a value: a bound on the depth of the
    calls of [_isValid] on it. *)
Fixpoint nesting (v : value) : nat :=
  match v with
  | VObject _ members =>
      S ((fix deepest (l : list (string * value)) : nat :=
            match l with
            | [] => 0
            | (_, x) :: rest => Nat.max (nesting x) (deepest rest)
            end) members)
  | VInherited _ => 1
  | _ => 0
  end.

(** The instance: [protected _errors] and [protected _schema]. *)
Record JsonValidator : Type := {
  _errors : list ValidationError;
  _schema : value
}.

(** [public get isValid()] *)
Definition isValid (this : JsonValidator) : bool :=
  Nat.eqb (length (_errors this)) 0.

(** [public get errors()] *)
Definition errors (this : JsonValidator) : list ValidationError :=
  _errors this.

(** A call made as a statement: its value is dropped. *)
Definition discard {A : Type} (c : completion A) : completion unit :=
  match c with
  | Normal _ => Normal tt
  | Throw_SyntaxError => Throw_SyntaxError
  | Throw_TypeError => Throw_TypeError
  | Out_of_fuel => Out_of_fuel
  end.

(** [public validate(root)]: the completion of the call and the instance as
    the call leaves it. *)
Definition validate (this : JsonValidator) (root : value)
    : completion unit * JsonValidator :=
  let this1 := {| _errors := []; _schema := _schema this |} in
  let '(c, errors1) :=
    _isValid (S (nesting (_schema this1))) (_schema this1) root "$"
      (_errors this1) in
  (discard c, {| _errors := errors1; _schema := _schema this1 |}).

(** [public compile(schema)], on an instance: [None] when [JSON.parse]
    throws. *)
Definition compile (this : JsonValidator) (schema : value) : option JsonValidator :=
  match (match schema with
         | VString text => JSON_parse text
         | _ => Some schema
         end) with
  | Some parsed => Some {| _errors := _errors this; _schema := parsed |}
  | None => None
  end.

(** [public constructor(schema)] *)
Definition new_JsonValidator (schema : value) : option JsonValidator :=
  compile {| _errors := []; _schema := VUndefined |} schema.

(** [public static validate(schema, document)] *)
Definition static_validate (schema document : value)
    : option (completion unit * JsonValidator) :=
  match new_JsonValidator schema with
  | Some validator => Some (validate validator document)
  | None => None
  end.

(** ** The vocabulary of the claims *)

(** A call is quiet when it leaves [this._errors] as it found it. *)
Definition quiet {A : Type} (m : M A) : Prop :=
  forall st, exists c, m st = (c, st).

(** A check either is quiet, or pushes one error and returns [false]. *)
Definition quiet_or_one_failure (m : M bool) : Prop :=
  forall st,
    (exists c, m st = (c, st))
    \/ (exists e, m st = (Normal false, (st ++ [e])%list)).

(** Two method bodies that behave alike. *)
Definition same {A : Type} (m1 m2 : M A) : Prop := forall st, m1 st = m2 st.

(** A call finishes when it does not stop for want of fuel. *)
Definition finishes {A : Type} (m : M A) : Prop :=
  forall st, fst (m st) <> Out_of_fuel.

(** The five checks [_isValid] makes on a descriptor, in the order of the
    source. *)
Definition checks (rec : value -> value -> string -> M bool)
    (schema document : value) (path : string) : list (M bool) :=
  [ _matchesType (get schema "type") document path;
    _matchesEnum (get schema "enum") document path;
    _matchesPattern (get schema "matches") document path;
    _matchesItems rec (get schema "items") document path;
    _matchesProperties rec (get schema "properties") document path ].

(** The specification's reading of a descriptor: run the checks in order and
    stop at the first that fails. *)
Fixpoint first_failure (l : list (M bool)) : M bool :=
  match l with
  | [] => ret true
  | check :: rest =>
      ok <- check ;;
      if ok then first_failure rest else ret false
  end.

(** The recursive calls log nothing: what is then pushed comes from the
    checks of the node itself. *)
Definition calls_are_quiet (rec : value -> value -> string -> M bool) : Prop :=
  forall s d p, quiet (rec s d p).

(** One invocation on a descriptor pushes at most one error of its own. *)
Definition one_own_error_at_most (schema document : value) : Prop :=
  forall rec path st,
    calls_are_quiet rec ->
    exists c own,
      _isValid_body rec schema document path st = (c, (st ++ own)%list)
      /\ length own <= 1.

(** One invocation on a descriptor stops at its first failing check. *)
Definition stops_at_first_failing_check (schema document : value) : Prop :=
  forall rec path,
    same (_isValid_body rec schema document path)
         (first_failure (checks rec schema document path)).

(** The failure of the type check is not rescued: [optional] is not set, or
    the document is not [undefined], or the type check passes. *)
Definition not_rescued (schema document : value) : Prop :=
  truthy (get schema "optional") = false
  \/ typeof document <> "undefined"
  \/ (forall path st,
        _matchesType (get schema "type") document path st = (Normal true, st)).




(** *** Vocabulary of the further properties *)

(** No descriptor that [_isValid] reaches in the schema sets [optional]:
    not the node itself when it is a descriptor, nor [items], nor a member
    of [properties]. *)
Inductive never_optional : value -> Prop :=
| never_optional_other (schema : value) :
    getType schema <> "object" -> never_optional schema
| never_optional_descriptor (schema : value) :
    getType schema = "object" ->
    truthy (get schema "optional") = false ->
    never_optional (get schema "items") ->
    (forall key,
        In key (Object_keys (get schema "properties")) ->
        never_optional (get (get schema "properties") key)) ->
    never_optional schema.

(** No object in the value has a member [toString] of its own, so every
    part of the value has a text. *)
Fixpoint printable (v : value) : bool :=
  match v with
  | VArray _ elems =>
      (fix all_elements (l : list value) : bool :=
         match l with
         | [] => true
         | x :: rest => printable x && all_elements rest
         end) elems
  | VObject _ members =>
      negb (has_own members "toString")
      && (fix all_members (l : list (string * value)) : bool :=
            match l with
            | [] => true
            | (_, x) :: rest => printable x && all_members rest
            end) members
  | _ => true
  end.

(** Every [matches] that [_isValid] reaches in the schema and that is
    defined has a text that [new RegExp] accepts. *)
Inductive patterns_accepted : value -> Prop :=
| patterns_accepted_other (schema : value) :
    getType schema <> "object" -> patterns_accepted schema
| patterns_accepted_descriptor (schema : value) :
    getType schema = "object" ->
    (getType (get schema "matches") <> "undefined" ->
     forall source,
       ToString (get schema "matches") = Some source ->
       forall subject, RegExp_test source subject <> None) ->
    patterns_accepted (get schema "items") ->
    (forall key,
        In key (Object_keys (get schema "properties")) ->
        patterns_accepted (get (get schema "properties") key)) ->
    patterns_accepted schema.

(** What a call logs goes after what was logged before, and neither its
    completion nor what it logs depends on what was logged before. *)
Definition framed {A : Type} (m : M A) : Prop :=
  forall st, m st = (fst (m []), (st ++ snd (m []))%list).

(** An error as a call at [path] builds it: one of the three keywords, a
    message, and an [instancePath] that extends [path], or that is the
    literal ["path"] of the properties check. *)
Definition logged_at (path : string) (e : ValidationError) : Prop :=
  exists kw p msg,
    e = error_literal kw p msg
    /\ (kw = "type" \/ kw = "value" \/ kw = "schema")
    /\ ((kw = "schema" /\ p = "path") \/ exists suffix, p = path ++ suffix).

(** A call at [path] only appends errors, all in the shape above. *)
Definition orderly {A : Type} (path : string) (m : M A) : Prop :=
  forall st,
    exists new, snd (m st) = (st ++ new)%list /\ Forall (logged_at path) new.

(** An orderly check that does not return [false] without an error. *)
Definition disciplined (path : string) (m : M bool) : Prop :=
  forall st,
    exists new,
      snd (m st) = (st ++ new)%list
      /\ Forall (logged_at path) new
      /\ (fst (m st) = Normal false -> new <> []).

(** A check that passes or throws without a trace, or fails with exactly one
    error. *)
Definition passes_or_one_error (m : M bool) : Prop :=
  forall st,
    m st = (Normal true, st)
    \/ m st = (Throw_SyntaxError, st)
    \/ m st = (Throw_TypeError, st)
    \/ exists e, m st = (Normal false, (st ++ [e])%list).


(** ** Basic facts *)

(** The two ways a check can go, for goals of [quiet_or_one_failure]. *)
Ltac stays_quiet := left; eexists; reflexivity.
Ltac logs_one_failure := right; eexists; reflexivity.

Lemma getType_in_Schema_Type (v : value) : In (getType v) Schema_Type.
Proof.
  destruct v; simpl; try tauto.
  destruct (name =? "__proto__"); simpl; tauto.
Qed.

Lemma ToString_array (addr : nat) (elems : list value) :
  ToString (VArray addr elems) = join elems ",".
Proof.
  simpl. induction elems as [|x rest IH]; simpl.
  - reflexivity.
  - destruct rest as [|y rest']; [reflexivity|].
    rewrite IH. reflexivity.
Qed.


Lemma lookup_absent (members : list (string * value)) (key : string) :
  ~ In key (map fst members) -> lookup members key = VUndefined.
Proof.
  induction members as [|[k v] rest IH]; simpl; intros Habsent.
  - reflexivity.
  - destruct (String.eqb_spec k key) as [Heq|Hne].
    + exfalso. apply Habsent. left. exact Heq.
    + apply IH. intros Hin. apply Habsent. right. exact Hin.
Qed.

Lemma nesting_lookup (members : list (string * value)) (key : string) (addr : nat) :
  nesting (lookup members key) < nesting (VObject addr members).
Proof.
  simpl. apply Nat.lt_succ_r.
  induction members as [|[k v] rest IH]; simpl.
  - lia.
  - destruct (String.eqb k key); lia.
Qed.

Lemma inherited_shallow (key : string) : nesting (inherited key) <= 1.
Proof. unfold inherited. destruct (Object_prototype_has key); simpl; lia. Qed.

(** A field that [Object.prototype] does not define is read from the own
    members. *)
Lemma nesting_get (o : value) (key : string) :
  getType o = "object" -> Object_prototype_has key = false ->
  nesting (get o key) < nesting o.
Proof.
  intros Hobj Hkey. destruct o; try discriminate.
  - unfold get. destruct (has_own members key).
    + exact (nesting_lookup members key addr).
    + unfold inherited. rewrite Hkey. simpl. lia.
  - unfold get, inherited. rewrite Hkey.
    destruct (name =? "__proto__"); [|simpl; lia].
    destruct (key =? "__proto__"); simpl; lia.
Qed.

Lemma nesting_get_le (o : value) (key : string) :
  nesting (get o key) <= nesting o.
Proof.
  destruct o; simpl; try lia.
  - destruct (has_own members key).
    + apply Nat.lt_le_incl. apply (nesting_lookup members key addr).
    + pose proof (inherited_shallow key) as Hshallow. simpl in Hshallow. lia.
  - destruct (name =? "__proto__"); [|simpl; lia].
    destruct (key =? "__proto__"); [simpl; lia|].
    apply inherited_shallow.
Qed.

(** *** The loop of [every] *)

Lemma every_from_passed {A : Type} (callback : A -> nat -> M bool)
    (before rest : list A) (index : nat) (st st1 : list ValidationError) :
  every_from callback before index st = (Normal true, st1) ->
  every_from callback (before ++ rest)%list index st
  = every_from callback rest (index + length before) st1.
Proof.
  revert index st.
  induction before as [|x before IH]; simpl; intros index st Hpass.
  - unfold ret in Hpass. inversion Hpass; subst.
    rewrite Nat.add_0_r. reflexivity.
  - unfold bind in *.
    destruct (callback x index st) as [[[|]| | |] st']; try discriminate.
    rewrite (IH _ _ Hpass). f_equal. lia.
Qed.

Lemma every_from_first_failure {A : Type} (callback : A -> nat -> M bool)
    (before : list A) (failing : A) (after : list A) (index : nat)
    (st st1 st2 : list ValidationError) :
  every_from callback before index st = (Normal true, st1) ->
  callback failing (index + length before) st1 = (Normal false, st2) ->
  every_from callback (before ++ failing :: after)%list index st
  = (Normal false, st2).
Proof.
  intros Hpass Hfail.
  rewrite (every_from_passed _ _ _ _ _ _ Hpass).
  simpl. unfold bind. rewrite Hfail. reflexivity.
Qed.

(** *** Calls that log at most one error *)

Lemma _matchesType_one_failure (schema document : value) (path : string) :
  quiet_or_one_failure (_matchesType schema document path).
Proof.
  intros st. unfold _matchesType, compareTypes. cbv beta iota.
  destruct (negb _); [|stays_quiet].
  destruct (_ =? _).
  { destruct (negb _); [logs_one_failure | stays_quiet]. }
  destruct (_ =? _); [|stays_quiet].
  destruct (_ <? 0)%Z; [|stays_quiet].
  destruct (join _ _); [logs_one_failure | stays_quiet].
Qed.

Lemma _matchesEnum_one_failure (schema document : value) (path : string) :
  quiet_or_one_failure (_matchesEnum schema document path).
Proof.
  intros st. unfold _matchesEnum.
  destruct (_ =? _); [|stays_quiet].
  destruct (_ <? 0)%Z; [|stays_quiet].
  destruct (join _ _); [|stays_quiet].
  destruct (ToString document); [logs_one_failure | stays_quiet].
Qed.

Lemma _matchesPattern_one_failure (schema document : value) (path : string) :
  quiet_or_one_failure (_matchesPattern schema document path).
Proof.
  intros st. unfold _matchesPattern, compareTypes. cbv beta iota.
  destruct (negb (getType schema =? "undefined")); [|stays_quiet].
  destruct (ToString schema) as [source|]; [|stays_quiet].
  unfold bind, converted, ret.
  destruct (negb (RegExp_accepts source)); [stays_quiet|].
  destruct (ToString document) as [subject|]; [|stays_quiet].
  destruct (RegExp_test source subject) as [[|]|].
  - stays_quiet.
  - logs_one_failure.
  - stays_quiet.
Qed.

Lemma every_from_one_failure {A : Type} (callback : A -> nat -> M bool)
    (l : list A) :
  (forall x index, quiet_or_one_failure (callback x index)) ->
  forall index, quiet_or_one_failure (every_from callback l index).
Proof.
  intros Hcb. induction l as [|x rest IH]; intros index st; simpl.
  - stays_quiet.
  - unfold bind.
    destruct (Hcb x index st) as [[c Hc]|[e He]].
    + rewrite Hc. destruct c as [[|]| | |].
      * apply IH.
      * stays_quiet.
      * stays_quiet.
      * stays_quiet.
      * stays_quiet.
    + rewrite He. logs_one_failure.
Qed.

Lemma quiet_is_one_failure (m : M bool) : quiet m -> quiet_or_one_failure m.
Proof. intros Hq st. left. apply Hq. Qed.

Lemma _matchesItems_one_failure (rec : value -> value -> string -> M bool)
    (schema document : value) (path : string) :
  (forall s d p, quiet (rec s d p)) ->
  quiet_or_one_failure (_matchesItems rec schema document path).
Proof.
  intros Hrec st. unfold _matchesItems, compareTypes.
  destruct (negb (getType schema =? "undefined")).
  - destruct (negb (getType document =? "array")).
    + logs_one_failure.
    + apply every_from_one_failure. intros x index. unfold items_callback.
      destruct (_ || _).
      * apply _matchesType_one_failure.
      * destruct (_ =? _).
        -- apply quiet_is_one_failure, Hrec.
        -- intros st'. stays_quiet.
  - stays_quiet.
Qed.

Lemma _matchesProperties_one_failure (rec : value -> value -> string -> M bool)
    (schema document : value) (path : string) :
  (forall s d p, quiet (rec s d p)) ->
  quiet_or_one_failure (_matchesProperties rec schema document path).
Proof.
  intros Hrec st. unfold _matchesProperties, compareTypes.
  destruct (negb (getType schema =? "undefined")).
  - destruct (negb (getType document =? "object")).
    + logs_one_failure.
    + destruct (_ || _).
      * apply every_from_one_failure. intros x index.
        apply _matchesType_one_failure.
      * destruct (_ =? _).
        -- apply every_from_one_failure. intros x index.
           apply quiet_is_one_failure, Hrec.
        -- stays_quiet.
  - stays_quiet.
Qed.

(** *** Enough fuel *)

Lemma bind_same {A B : Type} (m1 m2 : M A) (k1 k2 : A -> M B) :
  same m1 m2 -> (forall a, same (k1 a) (k2 a)) -> same (bind m1 k1) (bind m2 k2).
Proof.
  intros Hm Hk st. unfold bind. rewrite (Hm st).
  destruct (m2 st) as [[a| | |] st']; [apply Hk | reflexivity ..].
Qed.

Lemma same_refl {A : Type} (m : M A) : same m m.
Proof. intros st. reflexivity. Qed.

Lemma every_from_same {A : Type} (f g : A -> nat -> M bool) (l : list A) :
  (forall x index, same (f x index) (g x index)) ->
  forall index, same (every_from f l index) (every_from g l index).
Proof.
  intros Hfg. induction l as [|x rest IH]; intros index; simpl.
  - apply same_refl.
  - apply bind_same; [apply Hfg|].
    intros [|]; [apply IH | apply same_refl].
Qed.

(** The body of [_isValid] calls [this._isValid] only on schema nodes nested
    less deeply than its own. *)
Lemma _isValid_body_same (rec1 rec2 : value -> value -> string -> M bool)
    (schema : value) :
  (forall s, nesting s < nesting schema ->
             forall d p, same (rec1 s d p) (rec2 s d p)) ->
  forall document path,
    same (_isValid_body rec1 schema document path)
         (_isValid_body rec2 schema document path).
Proof.
  intros Hrec document path.
  unfold _isValid_body, compareTypes.
  destruct (_ || _); [apply same_refl|].
  destruct (getType schema =? "object") eqn:Hobj; [|apply same_refl].
  apply String.eqb_eq in Hobj.
  apply bind_same; [apply same_refl|]. intros ok1.
  destruct (_ && _); [apply same_refl|].
  apply bind_same; [apply same_refl|]. intros ok2.
  destruct (negb ok2); [apply same_refl|].
  apply bind_same; [apply same_refl|]. intros ok3.
  destruct (negb ok3); [apply same_refl|].
  apply bind_same.
  - unfold _matchesItems, compareTypes.
    destruct (negb _); [|apply same_refl].
    destruct (negb _); [apply same_refl|].
    apply every_from_same. intros x index. unfold items_callback.
    destruct (_ || _); [apply same_refl|].
    destruct (_ =? _); [|apply same_refl].
    apply Hrec. apply nesting_get; [exact Hobj | reflexivity].
  - intros ok4. destruct (negb ok4); [apply same_refl|].
    apply bind_same; [|intros ok5; apply same_refl].
    unfold _matchesProperties, compareTypes.
    destruct (negb _); [|apply same_refl].
    destruct (negb _); [apply same_refl|].
    destruct (_ || _); [apply same_refl|].
    destruct (_ =? _); [|apply same_refl].
    apply every_from_same. intros key index. unfold properties_callback.
    apply Hrec.
    apply Nat.le_lt_trans with (nesting (get schema "properties")).
    + apply nesting_get_le.
    + apply nesting_get; [exact Hobj | reflexivity].
Qed.

(** Past the nesting of the schema, more fuel changes nothing. *)
Lemma _isValid_fuel_irrelevant (fuel1 fuel2 : nat) (schema : value) :
  nesting schema < fuel1 -> nesting schema < fuel2 ->
  forall document path,
    same (_isValid fuel1 schema document path)
         (_isValid fuel2 schema document path).
Proof.
  revert fuel2 schema.
  induction fuel1 as [|fuel1 IH]; intros fuel2 schema H1 H2 document path.
  - lia.
  - destruct fuel2 as [|fuel2]; [lia|]. simpl.
    apply _isValid_body_same. intros s Hs d p.
    apply IH; lia.
Qed.

Lemma bind_finishes {A B : Type} (m : M A) (k : A -> M B) :
  finishes m -> (forall a, finishes (k a)) -> finishes (bind m k).
Proof.
  intros Hm Hk st. unfold bind. specialize (Hm st).
  destruct (m st) as [[a| | |] st']; simpl in *.
  - apply Hk.
  - discriminate.
  - discriminate.
  - exfalso. apply Hm. reflexivity.
Qed.

Lemma ret_finishes {A : Type} (a : A) : finishes (ret a).
Proof. intros st. simpl. discriminate. Qed.

Lemma _matchesType_finishes (schema document : value) (path : string) :
  finishes (_matchesType schema document path).
Proof.
  intros st. unfold _matchesType, compareTypes. cbv beta iota.
  destruct (negb _); [|discriminate].
  destruct (_ =? _); [destruct (negb _); discriminate|].
  destruct (_ =? _); [|discriminate].
  destruct (_ <? 0)%Z; [|discriminate].
  destruct (join _ _); discriminate.
Qed.

Lemma _matchesEnum_finishes (schema document : value) (path : string) :
  finishes (_matchesEnum schema document path).
Proof.
  intros st. unfold _matchesEnum.
  destruct (_ =? _); [|discriminate].
  destruct (_ <? 0)%Z; [|discriminate].
  destruct (join _ _); [|discriminate].
  destruct (ToString document); discriminate.
Qed.

Lemma _matchesPattern_finishes (schema document : value) (path : string) :
  finishes (_matchesPattern schema document path).
Proof.
  intros st. unfold _matchesPattern, compareTypes. cbv beta iota.
  destruct (negb _); [|discriminate].
  destruct (ToString schema) as [source|]; [|discriminate].
  unfold bind, converted, ret.
  destruct (negb (RegExp_accepts source)); [discriminate|].
  destruct (ToString document) as [subject|]; [|discriminate].
  destruct (RegExp_test source subject) as [[|]|]; discriminate.
Qed.

Lemma every_from_finishes {A : Type} (callback : A -> nat -> M bool)
    (l : list A) :
  (forall x index, finishes (callback x index)) ->
  forall index, finishes (every_from callback l index).
Proof.
  intros Hcb. induction l as [|x rest IH]; intros index; simpl.
  - apply ret_finishes.
  - apply bind_finishes; [apply Hcb|].
    intros [|]; [apply IH | apply ret_finishes].
Qed.

Lemma _isValid_body_finishes (rec : value -> value -> string -> M bool)
    (schema : value) :
  (forall s, nesting s < nesting schema -> forall d p, finishes (rec s d p)) ->
  forall document path, finishes (_isValid_body rec schema document path).
Proof.
  intros Hrec document path.
  unfold _isValid_body, compareTypes.
  destruct (_ || _).
  { apply bind_finishes; [apply _matchesType_finishes|].
    intros [|]; apply ret_finishes. }
  destruct (getType schema =? "object") eqn:Hobj; [|apply ret_finishes].
  apply String.eqb_eq in Hobj.
  apply bind_finishes; [apply _matchesType_finishes|]. intros ok1.
  destruct (_ && _); [apply ret_finishes|].
  apply bind_finishes; [apply _matchesEnum_finishes|]. intros ok2.
  destruct (negb ok2); [apply ret_finishes|].
  apply bind_finishes; [apply _matchesPattern_finishes|]. intros ok3.
  destruct (negb ok3); [apply ret_finishes|].
  apply bind_finishes.
  - unfold _matchesItems, compareTypes.
    destruct (negb _); [|apply ret_finishes].
    destruct (negb _).
    { apply bind_finishes; [intros st; simpl; discriminate|].
      intros _. apply ret_finishes. }
    apply every_from_finishes. intros x index. unfold items_callback.
    destruct (_ || _); [apply _matchesType_finishes|].
    destruct (_ =? _); [|apply ret_finishes].
    apply Hrec. apply nesting_get; [exact Hobj | reflexivity].
  - intros ok4. destruct (negb ok4); [apply ret_finishes|].
    apply bind_finishes;
      [|intros ok5; destruct (negb ok5); apply ret_finishes].
    unfold _matchesProperties, compareTypes.
    destruct (negb _); [|apply ret_finishes].
    destruct (negb _).
    { apply bind_finishes; [intros st; simpl; discriminate|].
      intros _. apply ret_finishes. }
    destruct (_ || _).
    { apply every_from_finishes. intros key index.
      apply _matchesType_finishes. }
    destruct (_ =? _); [|apply ret_finishes].
    apply every_from_finishes. intros key index. unfold properties_callback.
    apply Hrec.
    apply Nat.le_lt_trans with (nesting (get schema "properties")).
    + apply nesting_get_le.
    + apply nesting_get; [exact Hobj | reflexivity].
Qed.

(** With more fuel than the schema is nested, [_isValid] finishes. *)
Lemma _isValid_enough_fuel (fuel : nat) (schema : value) :
  nesting schema < fuel ->
  forall document path, finishes (_isValid fuel schema document path).
Proof.
  revert schema.
  induction fuel as [|fuel IH]; intros schema Hfuel document path.
  - lia.
  - simpl. apply _isValid_body_finishes. intros s Hs d p.
    apply IH. lia.
Qed.

(** [validate] never stops for want of fuel. *)
Lemma validate_finishes (this : JsonValidator) (root : value) :
  fst (validate this root) <> Out_of_fuel.
Proof.
  unfold validate. simpl.
  pose proof (_isValid_enough_fuel (S (nesting (_schema this))) (_schema this)
                (Nat.lt_succ_diag_r _) root "$" []) as Hfin.
  simpl in Hfin.
  destruct (_isValid_body _ _ _ _ _) as [[b| | |] st']; simpl in *;
    [discriminate | discriminate | discriminate
    | exact (fun _ => Hfin eq_refl)].
Qed.

(** *** The instance across calls *)

(** [validate] does not touch [this._schema]. *)
Lemma validate_keeps_schema (this : JsonValidator) (root : value) :
  _schema (snd (validate this root)) = _schema this.
Proof.
  unfold validate. simpl.
  destruct (_isValid_body _ _ _ _ _) as [c errors1]. reflexivity.
Qed.

(** [validate] reads nothing of the instance but [this._schema]: the errors
    of an earlier call are dropped by [this._errors = []]. *)
Lemma validate_reads_schema_only (this1 this2 : JsonValidator) (root : value) :
  _schema this1 = _schema this2 -> validate this1 root = validate this2 root.
Proof.
  intros Hschema. unfold validate. simpl. rewrite Hschema. reflexivity.
Qed.

(** *** One descriptor, five checks *)

Lemma _matchesType_cases (schema document : value) (path : string)
    (st : list ValidationError) :
  _matchesType schema document path st = (Normal true, st)
  \/ _matchesType schema document path st = (Throw_TypeError, st)
  \/ exists e,
       _matchesType schema document path st = (Normal false, (st ++ [e])%list).
Proof.
  unfold _matchesType, compareTypes. cbv beta iota.
  destruct (negb _); [|left; reflexivity].
  destruct (_ =? _).
  { destruct (negb _); [right; right; eexists | left]; reflexivity. }
  destruct (_ =? _); [|left; reflexivity].
  destruct (_ <? 0)%Z; [|left; reflexivity].
  destruct (join _ _); [right; right; eexists | right; left]; reflexivity.
Qed.

Lemma bind_same_on {A B : Type} (m : M A) (k1 k2 : A -> M B) :
  (forall st a st', m st = (Normal a, st') -> k1 a st' = k2 a st') ->
  same (bind m k1) (bind m k2).
Proof.
  intros Hk st. unfold bind.
  destruct (m st) as [[a| | |] st'] eqn:Hm; [|reflexivity ..].
  apply (Hk st). exact Hm.
Qed.

Lemma early_return_same (m k1 k2 : M bool) :
  same k1 k2 ->
  same (ok <- m ;; if negb ok then ret false else k1)
       (ok <- m ;; if ok then k2 else ret false).
Proof.
  intros Hk. apply bind_same; [apply same_refl|].
  intros [|]; simpl; [exact Hk | apply same_refl].
Qed.

Lemma first_failure_one_failure (l : list (M bool)) :
  Forall quiet_or_one_failure l -> quiet_or_one_failure (first_failure l).
Proof.
  induction 1 as [|check rest Hcheck _ IH]; intros st; simpl.
  - stays_quiet.
  - unfold bind. destruct (Hcheck st) as [[c Hc]|[e He]].
    + rewrite Hc. destruct c as [[|]| | |].
      * apply IH.
      * stays_quiet.
      * stays_quiet.
      * stays_quiet.
      * stays_quiet.
    + rewrite He. logs_one_failure.
Qed.

Lemma descriptor_stops_at_first_failing_check (schema document : value) :
  getType schema = "object" ->
  not_rescued schema document ->
  stops_at_first_failing_check schema document.
Proof.
  intros Hobj Hrescue rec path.
  unfold _isValid_body, compareTypes. rewrite Hobj. simpl.
  apply bind_same_on. intros st ok st' Htype.
  destruct ok; simpl.
  - repeat (apply early_return_same). apply same_refl.
  - destruct Hrescue as [Hopt | [Hdoc | Hpass]].
    + rewrite Hopt. reflexivity.
    + destruct (typeof document =? "undefined") eqn:Hty.
      * apply String.eqb_eq in Hty. contradiction.
      * rewrite orb_true_r. reflexivity.
    + rewrite Hpass in Htype. discriminate.
Qed.


(** ** The claims of the specification *)

(** C1, on the code: for the schema [{type: "string", optional: true}] and
    the document [undefined], [_isValid] returns [true] (the rescue), but
    the failed type check has already pushed its error: after [validate]
    the error collection holds one ["type"] error and [isValid] is
    [false]. *)
Theorem C1_optional_rescue_keeps_the_error (addr : nat)
    (prior : list ValidationError) :
  let schema :=
    VObject addr [("type", VString "string"); ("optional", VBoolean true)] in
  let this :=
    snd (validate {| _errors := prior; _schema := schema |} VUndefined) in
  _isValid 1 schema VUndefined "$" []
  = (Normal true,
     [error_literal "type" "$" "must be string, but it was undefined"])
  /\ errors this
     = [error_literal "type" "$" "must be string, but it was undefined"]
  /\ isValid this = false.
Proof. split; [|split]; reflexivity. Qed.

(** On a descriptor whose type failure is not rescued by [optional], one
    invocation of the matching engine runs the checks type, enum, pattern,
    items, properties in this order and stops at the first that fails, and
    it pushes at most one error of its own (what else is pushed comes from
    the recursive calls). *)
Lemma descriptor_one_own_error_unless_rescued (schema document : value) :
  getType schema = "object" ->
  not_rescued schema document ->
  one_own_error_at_most schema document
  /\ stops_at_first_failing_check schema document.
Proof.
  intros Hobj Hrescue.
  pose proof (descriptor_stops_at_first_failing_check _ _ Hobj Hrescue) as Hstop.
  split; [|exact Hstop].
  intros rec path st Hquiet. rewrite (Hstop rec path st).
  assert (Hall : Forall quiet_or_one_failure (checks rec schema document path)).
  { unfold checks.
    apply Forall_cons; [apply _matchesType_one_failure|].
    apply Forall_cons; [apply _matchesEnum_one_failure|].
    apply Forall_cons; [apply _matchesPattern_one_failure|].
    apply Forall_cons; [apply _matchesItems_one_failure; exact Hquiet|].
    apply Forall_cons; [apply _matchesProperties_one_failure; exact Hquiet|].
    apply Forall_nil. }
  destruct (first_failure_one_failure _ Hall st) as [[c Hc]|[e He]].
  - exists c, []. rewrite app_nil_r. split; [exact Hc | simpl; lia].
  - exists (Normal false), [e]. split; [exact He | simpl; lia].
Qed.

(** C2, on the code: for the descriptor [{type: "string", optional: true,
    enum: ["a"]}] and the document [undefined], one invocation pushes two
    errors of the node's own checks: the type check fails and pushes its
    error, [optional] lets the invocation go on, and the enum check pushes a
    second one.  The error of the rescued type check is the one that should
    not be there. *)
Theorem C2_rescued_descriptor_logs_two_errors (addr1 addr2 : nat)
    (prior : list ValidationError) :
  let schema :=
    VObject addr1 [("type", VString "string"); ("optional", VBoolean true);
                   ("enum", VArray addr2 [VString "a"])] in
  let this :=
    snd (validate {| _errors := prior; _schema := schema |} VUndefined) in
  errors this
  = [error_literal "type" "$" "must be string, but it was undefined";
     error_literal "value" "$" "value must be in enum a, but it was undefined"]
  /\ ~ one_own_error_at_most schema VUndefined.
Proof.
  intros schema this. split; [reflexivity|].
  intros Hclaim.
  destruct (Hclaim (fun _ _ _ => ret true) "$" []) as (c & own & Hrun & Hlen).
  - intros s d p st. exists (Normal true). reflexivity.
  - vm_compute in Hrun. inversion Hrun as [[Hc Hown]].
    rewrite <- Hown in Hlen. simpl in Hlen. lia.
Qed.

(** C3, on the code: the error of a failed type check has keyword ["type"]
    and names the classified type of the document.  For a declaration by a
    sequence the message names the members joined by [" | "]; for a
    declaration by one string the message names ["string"], the classified
    type of the declaration itself, whatever type is declared: [{type:
    "number"}] against ["x"] logs "must be string, but it was string".  (A
    sequence that [join] cannot print makes the call throw.) *)
Theorem C3_type_error_message (declared : string) (addr : nat)
    (allowed : list value) (document : value) (path : string)
    (st : list ValidationError) :
  _matchesType (VString declared) document path st
  = (if getType document =? declared then (Normal true, st)
     else (Normal false,
           (st ++ [error_literal "type" path
                     ("must be string, but it was " ++ getType document)])%list))
  /\ _matchesType (VArray addr allowed) document path st
     = (if (indexOf allowed (VString (getType document)) <? 0)%Z
        then match join allowed " | " with
             | Some oneOfType =>
                 (Normal false,
                  (st ++ [error_literal "type" path
                            ("must be " ++ oneOfType ++ ", but it was "
                             ++ getType document)])%list)
             | None => (Throw_TypeError, st)
             end
        else (Normal true, st))
  /\ errors (snd (validate
                    {| _errors := st;
                       _schema := VObject addr [("type", VString "number")] |}
                    (VString "x")))
     = [error_literal "type" "$" "must be string, but it was string"].
Proof.
  split; [|split].
  - unfold _matchesType, compareTypes. simpl.
    destruct (getType document =? declared); reflexivity.
  - unfold _matchesType, compareTypes. simpl.
    destruct (_ <? 0)%Z; [|reflexivity].
    destruct (join allowed " | "); reflexivity.
  - reflexivity.
Qed.

(** C4: on an array document the items check takes the elements in
    ascending index order, each at the path suffixed with its index in
    brackets, and stops at the first element that fails: when the elements
    [before] pass and the next one fails, the check returns [false] with
    the errors logged so far, whatever elements come after.  For [{type:
    "array", items: {type: "number"}}] against [[1, 2, "x", last]] the one
    error is at [$[2]], whatever [last] is. *)
Theorem C4_items_stop_at_first_failure :
  (forall (rec : value -> value -> string -> M bool) (items : value)
          (addr : nat) (before : list value) (failing : value)
          (after : list value) (path : string)
          (st st1 st2 : list ValidationError),
      getType items <> "undefined" ->
      _matchesItems rec items (VArray addr before) path st = (Normal true, st1) ->
      (if (getType items =? "string") || (getType items =? "array")
       then _matchesType items
       else if getType items =? "object" then rec items
       else fun _ _ => ret true)
        failing (path ++ "[" ++ index_text (length before) ++ "]") st1
      = (Normal false, st2) ->
      _matchesItems rec items (VArray addr (before ++ failing :: after)%list)
        path st
      = (Normal false, st2))
  /\ (forall (a1 a2 a3 : nat) (prior : list ValidationError) (last : value),
        let schema :=
          VObject a1 [("type", VString "array");
                      ("items", VObject a2 [("type", VString "number")])] in
        let document :=
          VArray a3 [VNumber (number_of_Z 1); VNumber (number_of_Z 2);
                     VString "x"; last] in
        let this :=
          snd (validate {| _errors := prior; _schema := schema |} document) in
        errors this
        = [error_literal "type" "$[2]" "must be string, but it was string"]
        /\ isValid this = false).
Proof.
  split.
  - intros rec items addr before failing after path st st1 st2
           Hdefined Hbefore Hfailing.
    destruct items as [| | | | | | |name];
      try (exfalso; apply Hdefined; reflexivity);
      unfold _matchesItems, compareTypes, every in *; simpl in *;
      try destruct (name =? "__proto__");
      (apply every_from_first_failure with (st1 := st1);
       [exact Hbefore | exact Hfailing]).
  - intros a1 a2 a3 prior last. split; reflexivity.
Qed.

(** C5: for every descriptor whose [properties] field is defined and every
    document that does not classify as an object, the properties check
    returns [false] and pushes exactly one error, of keyword ["schema"],
    whose [instancePath] is the literal text ["path"] whatever the path of
    the document is. *)
Theorem C5_properties_on_non_object
    (rec : value -> value -> string -> M bool)
    (descriptor document : value) (path : string) (st : list ValidationError) :
  getType (get descriptor "properties") <> "undefined" ->
  getType document <> "object" ->
  exists e,
    _matchesProperties rec (get descriptor "properties") document path st
    = (Normal false, (st ++ [e])%list)
    /\ keyword e = Some "schema"
    /\ instancePath e = "path"
    /\ e = error_literal "schema" "path"
             "must be an object, but schema defines properties.".
Proof.
  intros Hdefined Hdoc.
  exists (error_literal "schema" "path"
            "must be an object, but schema defines properties.").
  repeat split.
  unfold _matchesProperties, compareTypes.
  destruct (getType (get descriptor "properties") =? "undefined") eqn:Hs.
  - apply String.eqb_eq in Hs. contradiction.
  - destruct (getType document =? "object") eqn:Hd.
    + apply String.eqb_eq in Hd. contradiction.
    + reflexivity.
Qed.



(** C8: [validate] is idempotent.  A second call on the instance the first
    call leaves, with the same document, completes the same way and leaves
    the same instance, so the error collection is the same after each
    call. *)
Theorem C8_validate_idempotent (this : JsonValidator) (document : value) :
  validate (snd (validate this document)) document = validate this document
  /\ errors (snd (validate (snd (validate this document)) document))
     = errors (snd (validate this document)).
Proof.
  assert (Hsame : validate (snd (validate this document)) document
                  = validate this document).
  { apply validate_reads_schema_only. apply validate_keeps_schema. }
  split; [exact Hsame | rewrite Hsame; reflexivity].
Qed.

(** C9: fail-open.  On a schema node that classifies neither as a string,
    nor as an array, nor as an object, the matching engine returns [true]
    and pushes nothing, for every document; [validate] with such a schema
    leaves an empty error collection. *)
Theorem C9_fail_open (schema document : value) (path : string)
    (st prior : list ValidationError) (fuel : nat) :
  getType schema <> "string" ->
  getType schema <> "array" ->
  getType schema <> "object" ->
  _isValid (S fuel) schema document path st = (Normal true, st)
  /\ validate {| _errors := prior; _schema := schema |} document
     = (Normal tt, {| _errors := []; _schema := schema |})
  /\ isValid (snd (validate {| _errors := prior; _schema := schema |} document))
     = true.
Proof.
  intros Hstring Harray Hobject.
  destruct schema as [| | | | | | |name]; simpl in *; try contradiction;
    try (destruct (name =? "__proto__"); contradiction);
    repeat split; reflexivity.
Qed.

(** C10: the type tag ["integer"] cannot be met.  The classifier never
    answers ["integer"], so for every document the type check against
    ["integer"] returns [false] and pushes an error of keyword ["type"], be
    it through the type specifier ["integer"] or through the descriptor
    [{type: "integer"}]. *)
Theorem C10_integer_unsatisfiable (document : value) :
  getType document <> "integer"
  /\ (forall path st,
        _matchesType (VString "integer") document path st
        = (Normal false,
           (st ++ [error_literal "type" path
                     ("must be string, but it was " ++ getType document)])%list))
  /\ (forall fuel path st,
        _isValid (S fuel) (VString "integer") document path st
        = (Normal false,
           (st ++ [error_literal "type" path
                     ("must be string, but it was " ++ getType document)])%list))
  /\ (forall addr fuel path st,
        _isValid (S fuel) (VObject addr [("type", VString "integer")])
          document path st
        = (Normal false,
           (st ++ [error_literal "type" path
                     ("must be string, but it was " ++ getType document)])%list))
  /\ (forall addr prior,
        let schema := VObject addr [("type", VString "integer")] in
        let this := snd (validate {| _errors := prior; _schema := schema |}
                           document) in
        errors this
        = [error_literal "type" "$"
             ("must be string, but it was " ++ getType document)]
        /\ isValid this = false).
Proof.
  destruct document as [| | | | | | |name];
    try (repeat split; try reflexivity; discriminate).
  assert (Htag : getType (VInherited name) <> "integer").
  { simpl. destruct (name =? "__proto__"); discriminate. }
  split; [exact Htag|].
  unfold validate, discard, errors, isValid.
  cbn [_isValid _errors _schema snd]. unfold _isValid_body, compareTypes.
  cbn [getType get has_own lookup existsb fst String.eqb Ascii.eqb Bool.eqb
       orb negb].
  unfold _matchesType, compareTypes.
  cbn [getType strict_equals String.eqb Ascii.eqb Bool.eqb negb].
  assert (Hne : (getType (VInherited name) =? "integer") = false).
  { apply String.eqb_neq. exact Htag. }
  cbn [getType] in Hne. rewrite Hne.
  repeat split; reflexivity.
Qed.

(** ** Further properties of the code *)

(** *** What a call logs does not depend on what was logged before *)

Lemma framed_ret {A : Type} (a : A) : framed (ret a).
Proof. intros st. unfold ret. simpl. rewrite app_nil_r. reflexivity. Qed.

Lemma framed_throw {A : Type} : framed (@throw_SyntaxError A).
Proof. intros st. unfold throw_SyntaxError. simpl. rewrite app_nil_r. reflexivity. Qed.

Lemma framed_throw_TypeError {A : Type} : framed (@throw_TypeError A).
Proof. intros st. unfold throw_TypeError. simpl. rewrite app_nil_r. reflexivity. Qed.

Lemma framed_converted (text : option string) : framed (converted text).
Proof.
  destruct text; [apply framed_ret | apply framed_throw_TypeError].
Qed.

Lemma framed_out_of_fuel {A : Type} : framed (@out_of_fuel A).
Proof. intros st. unfold out_of_fuel. simpl. rewrite app_nil_r. reflexivity. Qed.

Lemma framed_logError (e : ValidationError) : framed (_logError e).
Proof. intros st. reflexivity. Qed.

Lemma framed_bind {A B : Type} (m : M A) (k : A -> M B) :
  framed m -> (forall a, framed (k a)) -> framed (bind m k).
Proof.
  intros Hm Hk st. unfold bind.
  rewrite (Hm st). destruct (m []) as [[a| | |] new1]; simpl.
  - rewrite (Hk a (st ++ new1)%list), (Hk a new1). simpl.
    rewrite app_assoc. reflexivity.
  - reflexivity.
  - reflexivity.
  - reflexivity.
Qed.

(** Goals [framed m] for a method body [m], by the shape of the body. *)
Ltac framed_body :=
  repeat first
    [ apply framed_ret
    | apply framed_throw
    | apply framed_throw_TypeError
    | apply framed_converted
    | apply framed_out_of_fuel
    | apply framed_logError
    | apply framed_bind; [|intros ?]
    | match goal with
      | |- framed (if ?b then _ else _) => destruct b
      | |- framed (match ?x with _ => _ end) => destruct x
      end ].

Lemma every_from_framed {A : Type} (callback : A -> nat -> M bool)
    (l : list A) :
  (forall x index, framed (callback x index)) ->
  forall index, framed (every_from callback l index).
Proof.
  intros Hcb. induction l as [|x rest IH]; intros index; simpl.
  - apply framed_ret.
  - apply framed_bind; [apply Hcb|].
    intros [|]; [apply IH | apply framed_ret].
Qed.

Lemma _matchesType_framed (schema document : value) (path : string) :
  framed (_matchesType schema document path).
Proof. unfold _matchesType, compareTypes. cbv beta iota. framed_body. Qed.

Lemma _matchesEnum_framed (schema document : value) (path : string) :
  framed (_matchesEnum schema document path).
Proof. unfold _matchesEnum. framed_body. Qed.

Lemma _matchesPattern_framed (schema document : value) (path : string) :
  framed (_matchesPattern schema document path).
Proof. unfold _matchesPattern, compareTypes. cbv beta iota. framed_body. Qed.

Lemma _isValid_body_framed (rec : value -> value -> string -> M bool) :
  (forall s d p, framed (rec s d p)) ->
  forall schema document path, framed (_isValid_body rec schema document path).
Proof.
  intros Hrec schema document path.
  assert (Hitems : forall s, framed (_matchesItems rec s document path)).
  { intros s. unfold _matchesItems, compareTypes. cbv beta iota.
    destruct (negb _); [|apply framed_ret].
    destruct (negb _); [framed_body|].
    apply every_from_framed. intros x index. unfold items_callback.
    destruct (_ || _); [apply _matchesType_framed|].
    destruct (_ =? _); [apply Hrec | apply framed_ret]. }
  assert (Hproperties : forall s, framed (_matchesProperties rec s document path)).
  { intros s. unfold _matchesProperties, compareTypes. cbv beta iota.
    destruct (negb _); [|apply framed_ret].
    destruct (negb _); [framed_body|].
    destruct (_ || _).
    { apply every_from_framed. intros key index. apply _matchesType_framed. }
    destruct (_ =? _); [|apply framed_ret].
    apply every_from_framed. intros key index. apply Hrec. }
  unfold _isValid_body, compareTypes. cbv beta iota.
  destruct (_ || _).
  { apply framed_bind; [apply _matchesType_framed|]. intros ok. framed_body. }
  destruct (_ =? _); [|apply framed_ret].
  apply framed_bind; [apply _matchesType_framed|]. intros ok1.
  destruct (_ && _); [apply framed_ret|].
  apply framed_bind; [apply _matchesEnum_framed|]. intros ok2.
  destruct (negb ok2); [apply framed_ret|].
  apply framed_bind; [apply _matchesPattern_framed|]. intros ok3.
  destruct (negb ok3); [apply framed_ret|].
  apply framed_bind; [apply Hitems|]. intros ok4.
  destruct (negb ok4); [apply framed_ret|].
  apply framed_bind; [apply Hproperties|]. intros ok5.
  destruct (negb ok5); apply framed_ret.
Qed.

Lemma _isValid_framed (fuel : nat) :
  forall schema document path, framed (_isValid fuel schema document path).
Proof.
  induction fuel as [|fuel IH]; intros schema document path; simpl.
  - apply framed_out_of_fuel.
  - apply _isValid_body_framed. exact IH.
Qed.


(** *** What is logged, and when *)

Lemma string_append_assoc (a b c : string) : (a ++ b) ++ c = a ++ (b ++ c).
Proof. induction a as [|ch a IH]; simpl; [reflexivity | rewrite IH; reflexivity]. Qed.

Lemma string_append_nil_r (a : string) : a ++ "" = a.
Proof. induction a as [|ch a IH]; simpl; [reflexivity | rewrite IH; reflexivity]. Qed.

Lemma logged_at_here (kw path msg : string) :
  kw = "type" \/ kw = "value" \/ kw = "schema" ->
  logged_at path (error_literal kw path msg).
Proof.
  intros Hkw. exists kw, path, msg. split; [reflexivity|]. split; [exact Hkw|].
  right. exists "". symmetry. apply string_append_nil_r.
Qed.

Lemma logged_at_literal_path (path msg : string) :
  logged_at path (error_literal "schema" "path" msg).
Proof.
  exists "schema", "path", msg. split; [reflexivity|].
  split; [right; right; reflexivity|].
  left. split; reflexivity.
Qed.

Lemma logged_at_extend (path extension : string) (e : ValidationError) :
  logged_at (path ++ extension) e -> logged_at path e.
Proof.
  intros (kw & p & msg & He & Hkw & [Hliteral | [suffix Hp]]).
  - exists kw, p, msg. split; [exact He|]. split; [exact Hkw|].
    left. exact Hliteral.
  - exists kw, p, msg. split; [exact He|]. split; [exact Hkw|].
    right. exists (extension ++ suffix). rewrite Hp. apply string_append_assoc.
Qed.

Lemma disciplined_orderly (path : string) (m : M bool) :
  disciplined path m -> orderly path m.
Proof. intros Hm st. destruct (Hm st) as (new & Hsnd & Hall & _). eauto. Qed.

Lemma orderly_ret {A : Type} (path : string) (a : A) : orderly path (ret a).
Proof. intros st. exists []. simpl. rewrite app_nil_r. split; constructor. Qed.

Lemma disciplined_ret_true (path : string) : disciplined path (ret true).
Proof.
  intros st. exists []. simpl. rewrite app_nil_r.
  split; [reflexivity|]. split; [constructor | discriminate].
Qed.

Lemma disciplined_throw (path : string) : disciplined path throw_SyntaxError.
Proof.
  intros st. exists []. simpl. rewrite app_nil_r.
  split; [reflexivity|]. split; [constructor | discriminate].
Qed.

Lemma disciplined_throw_TypeError (path : string) :
  disciplined path throw_TypeError.
Proof.
  intros st. exists []. simpl. rewrite app_nil_r.
  split; [reflexivity|]. split; [constructor | discriminate].
Qed.

Lemma bind_converted_disciplined (path : string) (text : option string)
    (k : string -> M bool) :
  (forall s, disciplined path (k s)) ->
  disciplined path (bind (converted text) k).
Proof.
  intros Hk. destruct text as [s|].
  - intros st. unfold bind, converted, ret. apply Hk.
  - intros st. unfold bind, converted, throw_TypeError.
    exists []. simpl. rewrite app_nil_r.
    split; [reflexivity|]. split; [constructor | discriminate].
Qed.

Lemma disciplined_out_of_fuel (path : string) : disciplined path out_of_fuel.
Proof.
  intros st. exists []. simpl. rewrite app_nil_r.
  split; [reflexivity|]. split; [constructor | discriminate].
Qed.

Lemma disciplined_log_false (path : string) (e : ValidationError) :
  logged_at path e -> disciplined path (_logError e ;; ret false).
Proof.
  intros He st. exists [e]. simpl.
  split; [reflexivity|]. split; [repeat constructor; exact He | discriminate].
Qed.

Lemma disciplined_extend (path extension : string) (m : M bool) :
  disciplined (path ++ extension) m -> disciplined path m.
Proof.
  intros Hm st. destruct (Hm st) as (new & Hsnd & Hall & Hfalse).
  exists new. split; [exact Hsnd|]. split; [|exact Hfalse].
  apply Forall_impl with (2 := Hall). intros e. apply logged_at_extend.
Qed.

(** After a disciplined check, the branch taken on [false] may return
    [false] freely: the check has logged already. *)
Lemma bind_disciplined (path : string) (m : M bool) (k : bool -> M bool) :
  disciplined path m ->
  disciplined path (k true) ->
  orderly path (k false) ->
  disciplined path (bind m k).
Proof.
  intros Hm Htrue Hfalse st. unfold bind.
  destruct (Hm st) as (new1 & Hsnd1 & Hall1 & Hne1).
  destruct (m st) as [[[|]| | |] st1]; simpl in *; subst st1.
  - destruct (Htrue (st ++ new1)%list) as (new2 & Hsnd2 & Hall2 & Hne2).
    exists (new1 ++ new2)%list. rewrite Hsnd2, app_assoc.
    split; [reflexivity|]. split; [apply Forall_app; split; assumption|].
    intros Hres Hnil. apply app_eq_nil in Hnil. destruct Hnil as [_ Hnil].
    exact (Hne2 Hres Hnil).
  - destruct (Hfalse (st ++ new1)%list) as (new2 & Hsnd2 & Hall2).
    exists (new1 ++ new2)%list. rewrite Hsnd2, app_assoc.
    split; [reflexivity|]. split; [apply Forall_app; split; assumption|].
    intros _ Hnil. apply app_eq_nil in Hnil. destruct Hnil as [Hnil _].
    exact (Hne1 eq_refl Hnil).
  - exists new1. split; [reflexivity|]. split; [exact Hall1 | discriminate].
  - exists new1. split; [reflexivity|]. split; [exact Hall1 | discriminate].
  - exists new1. split; [reflexivity|]. split; [exact Hall1 | discriminate].
Qed.

Lemma every_from_disciplined {A : Type} (path : string)
    (callback : A -> nat -> M bool) (l : list A) :
  (forall x index, disciplined path (callback x index)) ->
  forall index, disciplined path (every_from callback l index).
Proof.
  intros Hcb. induction l as [|x rest IH]; intros index; simpl.
  - apply disciplined_ret_true.
  - apply bind_disciplined; [apply Hcb | apply IH | apply orderly_ret].
Qed.

Lemma _matchesType_disciplined (schema document : value) (path : string) :
  disciplined path (_matchesType schema document path).
Proof.
  unfold _matchesType, compareTypes. cbv beta iota.
  destruct (negb _); [|apply disciplined_ret_true].
  destruct (_ =? _).
  { destruct (negb _); [|apply disciplined_ret_true].
    apply disciplined_log_false, logged_at_here. left; reflexivity. }
  destruct (_ =? _); [|apply disciplined_ret_true].
  destruct (_ <? _)%Z; [|apply disciplined_ret_true].
  apply bind_converted_disciplined. intros oneOfType.
  apply disciplined_log_false, logged_at_here. left; reflexivity.
Qed.

Lemma _matchesEnum_disciplined (schema document : value) (path : string) :
  disciplined path (_matchesEnum schema document path).
Proof.
  unfold _matchesEnum.
  destruct (_ =? _); [|apply disciplined_ret_true].
  destruct (_ <? _)%Z; [|apply disciplined_ret_true].
  apply bind_converted_disciplined. intros enumVals.
  apply bind_converted_disciplined. intros text.
  apply disciplined_log_false, logged_at_here. right; left; reflexivity.
Qed.

Lemma _matchesPattern_disciplined (schema document : value) (path : string) :
  disciplined path (_matchesPattern schema document path).
Proof.
  unfold _matchesPattern, compareTypes. cbv beta iota.
  destruct (negb _); [|apply disciplined_ret_true].
  apply bind_converted_disciplined. intros source.
  destruct (negb _); [apply disciplined_throw|].
  apply bind_converted_disciplined. intros subject.
  destruct (RegExp_test _ _) as [[|]|]; simpl.
  - apply disciplined_ret_true.
  - apply disciplined_log_false, logged_at_here. right; left; reflexivity.
  - apply disciplined_throw.
Qed.

Lemma _isValid_body_disciplined (rec : value -> value -> string -> M bool) :
  (forall s d p, disciplined p (rec s d p)) ->
  forall schema document path,
    disciplined path (_isValid_body rec schema document path).
Proof.
  intros Hrec schema document path.
  assert (Hitems : forall s, disciplined path (_matchesItems rec s document path)).
  { intros s. unfold _matchesItems, compareTypes. cbv beta iota.
    destruct (negb _); [|apply disciplined_ret_true].
    destruct (negb _).
    { apply disciplined_log_false, logged_at_here. right; right; reflexivity. }
    apply every_from_disciplined. intros x index. unfold items_callback.
    destruct (_ || _).
    { apply disciplined_extend with (extension := "[" ++ index_text index ++ "]").
      apply _matchesType_disciplined. }
    destruct (_ =? _); [|apply disciplined_ret_true].
    apply disciplined_extend with (extension := "[" ++ index_text index ++ "]").
    apply Hrec. }
  assert (Hproperties :
            forall s, disciplined path (_matchesProperties rec s document path)).
  { intros s. unfold _matchesProperties, compareTypes. cbv beta iota.
    destruct (negb _); [|apply disciplined_ret_true].
    destruct (negb _).
    { apply disciplined_log_false, logged_at_literal_path. }
    destruct (_ || _).
    { apply every_from_disciplined. intros key index.
      apply disciplined_extend with (extension := "." ++ key).
      apply _matchesType_disciplined. }
    destruct (_ =? _); [|apply disciplined_ret_true].
    apply every_from_disciplined. intros key index. unfold properties_callback.
    apply disciplined_extend with (extension := "." ++ key).
    apply Hrec. }
  assert (Hearly : forall (m k : M bool),
             disciplined path m -> disciplined path k ->
             disciplined path (ok <- m ;; if negb ok then ret false else k)).
  { intros m k Hm Hk.
    apply bind_disciplined; [exact Hm | exact Hk | apply orderly_ret]. }
  unfold _isValid_body, compareTypes. cbv beta iota.
  destruct (_ || _).
  { apply Hearly; [apply _matchesType_disciplined | apply disciplined_ret_true]. }
  destruct (_ =? _); [|apply disciplined_ret_true].
  assert (Hrest :
            disciplined path
              (ok <- _matchesEnum (get schema "enum") document path ;;
               if negb ok then ret false else
               ok <- _matchesPattern (get schema "matches") document path ;;
               if negb ok then ret false else
               ok <- _matchesItems rec (get schema "items") document path ;;
               if negb ok then ret false else
               ok <- _matchesProperties rec (get schema "properties")
                       document path ;;
               if negb ok then ret false else ret true)).
  { apply Hearly; [apply _matchesEnum_disciplined|].
    apply Hearly; [apply _matchesPattern_disciplined|].
    apply Hearly; [apply Hitems|].
    apply Hearly; [apply Hproperties | apply disciplined_ret_true]. }
  apply bind_disciplined; [apply _matchesType_disciplined | exact Hrest |].
  simpl. destruct (_ || _); [apply orderly_ret|].
  apply disciplined_orderly. exact Hrest.
Qed.

Lemma _isValid_disciplined (fuel : nat) :
  forall schema document path,
    disciplined path (_isValid fuel schema document path).
Proof.
  induction fuel as [|fuel IH]; intros schema document path; simpl.
  - apply disciplined_out_of_fuel.
  - apply _isValid_body_disciplined. exact IH.
Qed.


(** *** Without [optional], one error at most *)

Lemma passes_ret_true : passes_or_one_error (ret true).
Proof. intros st. left. reflexivity. Qed.

Lemma fails_log_false (e : ValidationError) :
  passes_or_one_error (_logError e ;; ret false).
Proof. intros st. right. right. right. exists e. reflexivity. Qed.

Lemma throws_SyntaxError_quietly : passes_or_one_error throw_SyntaxError.
Proof. intros st. right. left. reflexivity. Qed.

Lemma passes_or_one_error_converted (text : option string)
    (k : string -> M bool) :
  (forall s, passes_or_one_error (k s)) ->
  passes_or_one_error (bind (converted text) k).
Proof.
  intros Hk st. destruct text as [s|].
  - unfold bind, converted, ret. apply Hk.
  - right. right. left. reflexivity.
Qed.

Lemma passes_or_one_error_then (m k : M bool) :
  passes_or_one_error m -> passes_or_one_error k ->
  passes_or_one_error (ok <- m ;; if ok then k else ret false).
Proof.
  intros Hm Hk st. unfold bind.
  destruct (Hm st) as [Hpass | [Hthrow | [Hthrow | [e Hfail]]]].
  - rewrite Hpass. apply Hk.
  - rewrite Hthrow. right. left. reflexivity.
  - rewrite Hthrow. right. right. left. reflexivity.
  - rewrite Hfail. right. right. right. exists e. reflexivity.
Qed.

Lemma passes_or_one_error_early (m k : M bool) :
  passes_or_one_error m -> passes_or_one_error k ->
  passes_or_one_error (ok <- m ;; if negb ok then ret false else k).
Proof.
  intros Hm Hk st.
  rewrite (early_return_same m k k (same_refl k) st).
  apply passes_or_one_error_then; assumption.
Qed.

Lemma passes_or_one_error_guarded (m k : M bool) (guard : bool) :
  guard = true ->
  passes_or_one_error m -> passes_or_one_error k ->
  passes_or_one_error (ok <- m ;; if negb ok && guard then ret false else k).
Proof.
  intros Hguard Hm Hk st. rewrite Hguard. unfold bind.
  destruct (Hm st) as [Hpass | [Hthrow | [Hthrow | [e Hfail]]]].
  - rewrite Hpass. apply Hk.
  - rewrite Hthrow. right. left. reflexivity.
  - rewrite Hthrow. right. right. left. reflexivity.
  - rewrite Hfail. right. right. right. exists e. reflexivity.
Qed.

Lemma every_from_passes_or_one_error {A : Type}
    (callback : A -> nat -> M bool) (l : list A) :
  (forall x index, In x l -> passes_or_one_error (callback x index)) ->
  forall index, passes_or_one_error (every_from callback l index).
Proof.
  induction l as [|x rest IH]; intros Hcb index; simpl.
  - apply passes_ret_true.
  - apply passes_or_one_error_then; [apply Hcb; left; reflexivity|].
    apply IH. intros y i Hy. apply Hcb. right. exact Hy.
Qed.

Lemma _matchesType_passes_or_one_error (schema document : value) (path : string) :
  passes_or_one_error (_matchesType schema document path).
Proof.
  intros st.
  destruct (_matchesType_cases schema document path st) as [H | [H | [e H]]].
  - left. exact H.
  - right. right. left. exact H.
  - right. right. right. exists e. exact H.
Qed.

Lemma _matchesEnum_passes_or_one_error (schema document : value) (path : string) :
  passes_or_one_error (_matchesEnum schema document path).
Proof.
  unfold _matchesEnum.
  destruct (_ =? _); [|apply passes_ret_true].
  destruct (_ <? _)%Z; [|apply passes_ret_true].
  apply passes_or_one_error_converted. intros enumVals.
  apply passes_or_one_error_converted. intros text.
  apply fails_log_false.
Qed.

Lemma _matchesPattern_passes_or_one_error (schema document : value)
    (path : string) :
  passes_or_one_error (_matchesPattern schema document path).
Proof.
  unfold _matchesPattern, compareTypes. cbv beta iota.
  destruct (negb _); [|apply passes_ret_true].
  apply passes_or_one_error_converted. intros source.
  destruct (negb _); [apply throws_SyntaxError_quietly|].
  apply passes_or_one_error_converted. intros subject.
  destruct (RegExp_test _ _) as [[|]|]; simpl.
  - apply passes_ret_true.
  - apply fails_log_false.
  - apply throws_SyntaxError_quietly.
Qed.

Lemma never_optional_flag (schema : value) :
  getType schema = "object" -> never_optional schema ->
  truthy (get schema "optional") = false.
Proof.
  intros Hobject Hnever.
  destruct Hnever as [schema Hother | schema _ Hflag _ _];
    [contradiction | exact Hflag].
Qed.

Lemma never_optional_items (schema : value) :
  getType schema = "object" -> never_optional schema ->
  never_optional (get schema "items").
Proof.
  intros Hobject Hnever.
  destruct Hnever as [schema Hother | schema _ _ Hitems _];
    [contradiction | exact Hitems].
Qed.

Lemma never_optional_properties (schema : value) (key : string) :
  getType schema = "object" -> never_optional schema ->
  In key (Object_keys (get schema "properties")) ->
  never_optional (get (get schema "properties") key).
Proof.
  intros Hobject Hnever.
  destruct Hnever as [schema Hother | schema _ _ _ Hproperties];
    [contradiction | apply Hproperties].
Qed.

Lemma _isValid_body_passes_or_one_error
    (rec : value -> value -> string -> M bool) (schema : value) :
  (forall s, nesting s < nesting schema -> never_optional s ->
             forall d p, passes_or_one_error (rec s d p)) ->
  never_optional schema ->
  forall document path,
    passes_or_one_error (_isValid_body rec schema document path).
Proof.
  intros Hrec Hschema document path.
  unfold _isValid_body, compareTypes. cbv beta iota.
  destruct (_ || _).
  { apply passes_or_one_error_early;
      [apply _matchesType_passes_or_one_error | apply passes_ret_true]. }
  destruct (getType schema =? "object") eqn:Hobj; [|apply passes_ret_true].
  apply String.eqb_eq in Hobj.
  rewrite (never_optional_flag _ Hobj Hschema).
  apply passes_or_one_error_guarded;
    [reflexivity | apply _matchesType_passes_or_one_error |].
  apply passes_or_one_error_early; [apply _matchesEnum_passes_or_one_error|].
  apply passes_or_one_error_early; [apply _matchesPattern_passes_or_one_error|].
  apply passes_or_one_error_early.
  { unfold _matchesItems, compareTypes. cbv beta iota.
    destruct (negb _); [|apply passes_ret_true].
    destruct (negb _); [apply fails_log_false|].
    apply every_from_passes_or_one_error. intros x index _.
    unfold items_callback.
    destruct (_ || _); [apply _matchesType_passes_or_one_error|].
    destruct (_ =? _); [|apply passes_ret_true].
    apply Hrec;
      [apply nesting_get; [exact Hobj | reflexivity]
      | apply never_optional_items; assumption]. }
  apply passes_or_one_error_early; [|apply passes_ret_true].
  unfold _matchesProperties, compareTypes. cbv beta iota.
  destruct (negb _); [|apply passes_ret_true].
  destruct (negb _); [apply fails_log_false|].
  destruct (_ || _).
  { apply every_from_passes_or_one_error. intros key index _.
    apply _matchesType_passes_or_one_error. }
  destruct (_ =? _); [|apply passes_ret_true].
  apply every_from_passes_or_one_error. intros key index Hkey.
  unfold properties_callback. apply Hrec.
  - apply Nat.le_lt_trans with (nesting (get schema "properties")).
    + apply nesting_get_le.
    + apply nesting_get; [exact Hobj | reflexivity].
  - apply never_optional_properties; assumption.
Qed.

Lemma _isValid_passes_or_one_error (fuel : nat) :
  forall schema,
    nesting schema < fuel -> never_optional schema ->
    forall document path,
      passes_or_one_error (_isValid fuel schema document path).
Proof.
  induction fuel as [|fuel IH]; intros schema Hfuel Hschema document path.
  - lia.
  - simpl. apply _isValid_body_passes_or_one_error; [|exact Hschema].
    intros s Hs Hnever d p. apply IH; [lia | exact Hnever].
Qed.


(** *** Membership by [indexOf] *)

Lemma indexOf_from_negative (l : list value) (x : value) (i : Z) :
  (0 <= i)%Z ->
  (indexOf_from l x i <? 0)%Z = negb (existsb (fun y => strict_equals y x) l).
Proof.
  revert i. induction l as [|y rest IH]; intros i Hi; simpl.
  - reflexivity.
  - destruct (strict_equals y x); simpl.
    + apply Z.ltb_ge. exact Hi.
    + apply IH. lia.
Qed.

Lemma indexOf_negative (l : list value) (x : value) :
  (indexOf l x <? 0)%Z = negb (existsb (fun y => strict_equals y x) l).
Proof. apply indexOf_from_negative. lia. Qed.

Lemma strict_equals_string (y : value) (s : string) :
  strict_equals y (VString s) = true <-> y = VString s.
Proof.
  destruct y; simpl; split; try discriminate.
  - intros H. apply String.eqb_eq in H. subst. reflexivity.
  - intros H. inversion H. apply String.eqb_refl.
Qed.

Lemma strict_equals_NaN (y : value) :
  strict_equals y (VNumber S754_nan) = false.
Proof.
  destruct y; try reflexivity. simpl.
  destruct n as [s | s | | s m e]; try reflexivity; destruct s; reflexivity.
Qed.

Lemma existsb_strict_equals (l : list value) (x : value) :
  existsb (fun y => strict_equals y x) l = true
  <-> exists y, In y l /\ strict_equals y x = true.
Proof. apply existsb_exists. Qed.

(** *** The loops over a type specifier *)

(** [every] over callbacks that all pass without a trace. *)
Lemma every_from_all_pass {A : Type} (callback : A -> nat -> M bool)
    (l : list A) (index : nat) (st : list ValidationError) :
  (forall x i, In x l -> callback x i st = (Normal true, st)) ->
  every_from callback l index st = (Normal true, st).
Proof.
  revert index. induction l as [|x rest IH]; intros index Hall; simpl.
  - reflexivity.
  - unfold bind. rewrite (Hall x index (or_introl eq_refl)).
    apply IH. intros y i Hy. apply Hall. right. exact Hy.
Qed.

Lemma every_from_same_on {A : Type} (f g : A -> nat -> M bool) (l : list A) :
  (forall x index, In x l -> same (f x index) (g x index)) ->
  forall index, same (every_from f l index) (every_from g l index).
Proof.
  induction l as [|x rest IH]; intros Hfg index; simpl.
  - apply same_refl.
  - apply bind_same; [apply Hfg; left; reflexivity|].
    intros [|]; [|apply same_refl].
    apply IH. intros y i Hy. apply Hfg. right. exact Hy.
Qed.

Lemma _matchesType_string (declared : string) (document : value)
    (path : string) (st : list ValidationError) :
  _matchesType (VString declared) document path st
  = if getType document =? declared then (Normal true, st)
    else (Normal false,
          (st ++ [error_literal "type" path
                    ("must be string, but it was " ++ getType document)])%list).
Proof.
  unfold _matchesType, compareTypes. simpl.
  destruct (getType document =? declared); reflexivity.
Qed.

(** *** The recursive calls a descriptor makes *)

(** The body of [_isValid] calls [this._isValid] on [schema.items] and on
    the members of [schema.properties] only. *)
Lemma _isValid_body_same_on_children
    (rec1 rec2 : value -> value -> string -> M bool) (schema : value) :
  (forall d p, same (rec1 (get schema "items") d p)
                    (rec2 (get schema "items") d p)) ->
  (forall key d p,
      same (rec1 (get (get schema "properties") key) d p)
           (rec2 (get (get schema "properties") key) d p)) ->
  forall document path,
    same (_isValid_body rec1 schema document path)
         (_isValid_body rec2 schema document path).
Proof.
  intros Hitems Hproperties document path.
  unfold _isValid_body, compareTypes.
  destruct (_ || _); [apply same_refl|].
  destruct (getType schema =? "object"); [|apply same_refl].
  apply bind_same; [apply same_refl|]. intros ok1.
  destruct (_ && _); [apply same_refl|].
  apply bind_same; [apply same_refl|]. intros ok2.
  destruct (negb ok2); [apply same_refl|].
  apply bind_same; [apply same_refl|]. intros ok3.
  destruct (negb ok3); [apply same_refl|].
  apply bind_same.
  - unfold _matchesItems, compareTypes.
    destruct (negb _); [|apply same_refl].
    destruct (negb _); [apply same_refl|].
    apply every_from_same. intros x index. unfold items_callback.
    destruct (_ || _); [apply same_refl|].
    destruct (_ =? _); [apply Hitems | apply same_refl].
  - intros ok4. destruct (negb ok4); [apply same_refl|].
    apply bind_same; [|intros ok5; apply same_refl].
    unfold _matchesProperties, compareTypes.
    destruct (negb _); [|apply same_refl].
    destruct (negb _); [apply same_refl|].
    destruct (_ || _); [apply same_refl|].
    destruct (_ =? _); [|apply same_refl].
    apply every_from_same. intros key index. apply Hproperties.
Qed.

(** The fields of a descriptor that [_isValid] reads. *)
Lemma _isValid_body_reads_six_fields
    (rec : value -> value -> string -> M bool) (schema other : value) :
  getType schema = "object" -> getType other = "object" ->
  get other "type" = get schema "type" ->
  get other "optional" = get schema "optional" ->
  get other "enum" = get schema "enum" ->
  get other "matches" = get schema "matches" ->
  get other "items" = get schema "items" ->
  get other "properties" = get schema "properties" ->
  forall document path,
    same (_isValid_body rec other document path)
         (_isValid_body rec schema document path).
Proof.
  intros Hschema Hother Htype Hoptional Henum Hmatches Hitems Hproperties
         document path st.
  unfold _isValid_body, compareTypes.
  rewrite Hschema, Hother, Htype, Hoptional, Henum, Hmatches, Hitems,
    Hproperties.
  reflexivity.
Qed.

(** *** What makes a call throw *)

Lemma printable_elements (addr : nat) (elems : list value) :
  printable (VArray addr elems) = true ->
  forall x, In x elems -> printable x = true.
Proof.
  cbn [printable]. induction elems as [|y rest IH]; intros Hall x Hin.
  - destruct Hin.
  - apply andb_prop in Hall. destruct Hall as [Hy Hrest].
    destruct Hin as [Heq | Hin]; [rewrite <- Heq; exact Hy|].
    apply IH; assumption.
Qed.

Lemma printable_lookup (members : list (string * value)) (key : string) :
  (fix all_members (l : list (string * value)) : bool :=
     match l with
     | [] => true
     | (_, x) :: rest => printable x && all_members rest
     end) members = true ->
  printable (lookup members key) = true.
Proof.
  induction members as [|[k v] rest IH]; intros Hall.
  - reflexivity.
  - apply andb_prop in Hall. destruct Hall as [Hv Hrest]. cbn [lookup].
    destruct (k =? key); [exact Hv | apply IH; exact Hrest].
Qed.

Lemma printable_inherited (key : string) : printable (inherited key) = true.
Proof. unfold inherited. destruct (Object_prototype_has key); reflexivity. Qed.

Lemma printable_get (o : value) (key : string) :
  printable o = true -> printable (get o key) = true.
Proof.
  destruct o as [| | | | | |addr members|name]; try reflexivity.
  - intros Ho. cbn [printable] in Ho. apply andb_prop in Ho.
    destruct Ho as [_ Hall]. cbn [get].
    destruct (has_own members key);
      [apply printable_lookup; exact Hall | apply printable_inherited].
  - intros _. cbn [get]. destruct (name =? "__proto__"); [|reflexivity].
    destruct (key =? "__proto__"); [reflexivity | apply printable_inherited].
Qed.

Lemma printable_ToString :
  forall v, printable v = true -> ToString v <> None.
Proof.
  fix IH 1. intros [| |b|n|s|addr elems|addr members|name] Hv.
  - discriminate.
  - discriminate.
  - destruct b; discriminate.
  - discriminate.
  - discriminate.
  - rewrite ToString_array. cbn [printable] in Hv.
    induction elems as [|x rest IHrest]; [discriminate|].
    apply andb_prop in Hv. destruct Hv as [Hx Hrest].
    specialize (IHrest Hrest). specialize (IH x Hx).
    cbn [join].
    assert (Hitem : join_item x <> None).
    { unfold join_item. destruct x; try discriminate; exact IH. }
    destruct (join_item x) as [item|]; [|exfalso; apply Hitem; reflexivity].
    destruct rest as [|y rest']; [discriminate|].
    destruct (join (y :: rest') ","); [discriminate | exact IHrest].
  - cbn [printable] in Hv. apply andb_prop in Hv. destruct Hv as [Hown _].
    cbn [ToString]. apply negb_true_iff in Hown. rewrite Hown. discriminate.
  - cbn [ToString]. destruct (name =? "__proto__"); discriminate.
Qed.

Lemma printable_join (l : list value) (separator : string) :
  (forall x, In x l -> printable x = true) -> join l separator <> None.
Proof.
  induction l as [|x rest IH]; intros Hall; [discriminate|].
  cbn [join].
  assert (Hitem : join_item x <> None).
  { unfold join_item.
    pose proof (printable_ToString x (Hall x (or_introl eq_refl))) as Hx.
    destruct x; try discriminate; exact Hx. }
  destruct (join_item x) as [item|]; [|exfalso; apply Hitem; reflexivity].
  destruct rest as [|y rest']; [discriminate|].
  assert (Hrest : join (y :: rest') separator <> None).
  { apply IH. intros z Hz. apply Hall. right. exact Hz. }
  destruct (join (y :: rest') separator); [discriminate | exact Hrest].
Qed.

Lemma printable_join_elements (v : value) (separator : string) :
  printable v = true -> join (elements v) separator <> None.
Proof.
  intros Hv. apply printable_join.
  destruct v as [| | | | |addr elems| |]; try (intros x []).
  apply (printable_elements addr). exact Hv.
Qed.

Lemma bind_no_TypeError {A B : Type} (m : M A) (k : A -> M B)
    (st : list ValidationError) :
  fst (m st) <> Throw_TypeError ->
  (forall a st', fst (k a st') <> Throw_TypeError) ->
  fst (bind m k st) <> Throw_TypeError.
Proof.
  intros Hm Hk. unfold bind.
  destruct (m st) as [[a| | |] st']; cbn [fst] in Hm |- *.
  - apply Hk.
  - discriminate.
  - exfalso. apply Hm. reflexivity.
  - discriminate.
Qed.

Lemma bind_no_SyntaxError {A B : Type} (m : M A) (k : A -> M B)
    (st : list ValidationError) :
  fst (m st) <> Throw_SyntaxError ->
  (forall a st', fst (k a st') <> Throw_SyntaxError) ->
  fst (bind m k st) <> Throw_SyntaxError.
Proof.
  intros Hm Hk. unfold bind.
  destruct (m st) as [[a| | |] st']; cbn [fst] in Hm |- *.
  - apply Hk.
  - exfalso. apply Hm. reflexivity.
  - discriminate.
  - discriminate.
Qed.

Lemma converted_no_TypeError {B : Type} (text : option string)
    (k : string -> M B) (st : list ValidationError) :
  text <> None ->
  (forall s st', fst (k s st') <> Throw_TypeError) ->
  fst (bind (converted text) k st) <> Throw_TypeError.
Proof.
  intros Htext Hk. destruct text as [s|]; [|exfalso; apply Htext; reflexivity].
  unfold bind, converted, ret. apply Hk.
Qed.

Lemma converted_no_SyntaxError {B : Type} (text : option string)
    (k : string -> M B) (st : list ValidationError) :
  (forall s st', fst (k s st') <> Throw_SyntaxError) ->
  fst (bind (converted text) k st) <> Throw_SyntaxError.
Proof.
  intros Hk. destruct text as [s|]; [|discriminate].
  unfold bind, converted, ret. apply Hk.
Qed.

Lemma every_from_no_TypeError {A : Type} (callback : A -> nat -> M bool)
    (l : list A) :
  (forall x index st, In x l -> fst (callback x index st) <> Throw_TypeError) ->
  forall index st, fst (every_from callback l index st) <> Throw_TypeError.
Proof.
  induction l as [|x rest IH]; intros Hcb index st; cbn [every_from].
  - discriminate.
  - apply bind_no_TypeError; [apply Hcb; left; reflexivity|].
    intros [|] st'; [|discriminate].
    apply IH. intros y i st'' Hy. apply Hcb. right. exact Hy.
Qed.

Lemma every_from_no_SyntaxError {A : Type} (callback : A -> nat -> M bool)
    (l : list A) :
  (forall x index st, In x l -> fst (callback x index st) <> Throw_SyntaxError) ->
  forall index st, fst (every_from callback l index st) <> Throw_SyntaxError.
Proof.
  induction l as [|x rest IH]; intros Hcb index st; cbn [every_from].
  - discriminate.
  - apply bind_no_SyntaxError; [apply Hcb; left; reflexivity|].
    intros [|] st'; [|discriminate].
    apply IH. intros y i st'' Hy. apply Hcb. right. exact Hy.
Qed.

Lemma _matchesType_no_SyntaxError (schema document : value) (path : string)
    (st : list ValidationError) :
  fst (_matchesType schema document path st) <> Throw_SyntaxError.
Proof.
  destruct (_matchesType_cases schema document path st) as [H | [H | [e H]]];
    rewrite H; discriminate.
Qed.

Lemma _matchesType_no_TypeError (schema document : value) (path : string)
    (st : list ValidationError) :
  printable schema = true ->
  fst (_matchesType schema document path st) <> Throw_TypeError.
Proof.
  intros Hschema. unfold _matchesType, compareTypes. cbv beta iota.
  destruct (negb _); [|discriminate].
  destruct (_ =? _); [destruct (negb _); discriminate|].
  destruct (_ =? _); [|discriminate].
  destruct (_ <? _)%Z; [|discriminate].
  apply converted_no_TypeError;
    [apply printable_join_elements; exact Hschema | discriminate].
Qed.

Lemma _matchesEnum_no_SyntaxError (schema document : value) (path : string)
    (st : list ValidationError) :
  fst (_matchesEnum schema document path st) <> Throw_SyntaxError.
Proof.
  unfold _matchesEnum.
  destruct (_ =? _); [|discriminate].
  destruct (_ <? _)%Z; [|discriminate].
  apply converted_no_SyntaxError. intros enumVals st1.
  apply converted_no_SyntaxError. discriminate.
Qed.

Lemma _matchesEnum_no_TypeError (schema document : value) (path : string)
    (st : list ValidationError) :
  printable schema = true -> printable document = true ->
  fst (_matchesEnum schema document path st) <> Throw_TypeError.
Proof.
  intros Hschema Hdocument. unfold _matchesEnum.
  destruct (_ =? _); [|discriminate].
  destruct (_ <? _)%Z; [|discriminate].
  apply converted_no_TypeError;
    [apply printable_join_elements; exact Hschema|].
  intros enumVals st1.
  apply converted_no_TypeError;
    [apply printable_ToString; exact Hdocument | discriminate].
Qed.

Lemma _matchesPattern_no_SyntaxError (schema document : value) (path : string)
    (st : list ValidationError) :
  (getType schema <> "undefined" ->
   forall source,
     ToString schema = Some source ->
     forall subject, RegExp_test source subject <> None) ->
  fst (_matchesPattern schema document path st) <> Throw_SyntaxError.
Proof.
  intros Haccepted. unfold _matchesPattern, compareTypes. cbv beta iota.
  destruct (String.eqb_spec (getType schema) "undefined") as [_|Hdefined];
    [discriminate|].
  cbn [negb]. specialize (Haccepted Hdefined).
  destruct (ToString schema) as [source|]; [|discriminate].
  specialize (Haccepted source eq_refl).
  unfold bind at 1. cbn [converted ret].
  assert (Hnew : RegExp_accepts source = true).
  { unfold RegExp_accepts. specialize (Haccepted "").
    destruct (RegExp_test source ""); [reflexivity|].
    exfalso. apply Haccepted. reflexivity. }
  rewrite Hnew. cbn [negb].
  apply converted_no_SyntaxError. intros subject st1.
  specialize (Haccepted subject).
  destruct (RegExp_test source subject) as [[|]|];
    [discriminate | discriminate | exfalso; apply Haccepted; reflexivity].
Qed.

Lemma _matchesPattern_no_TypeError (schema document : value) (path : string)
    (st : list ValidationError) :
  printable schema = true -> printable document = true ->
  fst (_matchesPattern schema document path st) <> Throw_TypeError.
Proof.
  intros Hschema Hdocument. unfold _matchesPattern, compareTypes.
  cbv beta iota.
  destruct (negb _); [|discriminate].
  apply converted_no_TypeError; [apply printable_ToString; exact Hschema|].
  intros source st1. destruct (negb _); [discriminate|].
  apply converted_no_TypeError; [apply printable_ToString; exact Hdocument|].
  intros subject st2.
  destruct (RegExp_test source subject) as [[|]|]; discriminate.
Qed.

Lemma _isValid_body_no_TypeError (rec : value -> value -> string -> M bool) :
  (forall s d p st,
      printable s = true -> printable d = true ->
      fst (rec s d p st) <> Throw_TypeError) ->
  forall schema document path st,
    printable schema = true -> printable document = true ->
    fst (_isValid_body rec schema document path st) <> Throw_TypeError.
Proof.
  intros Hrec schema document path st Hschema Hdocument.
  unfold _isValid_body, compareTypes. cbv beta iota.
  destruct (_ || _).
  { apply bind_no_TypeError; [apply _matchesType_no_TypeError; exact Hschema|].
    intros [|] st'; discriminate. }
  destruct (_ =? _); [|discriminate].
  apply bind_no_TypeError;
    [apply _matchesType_no_TypeError, printable_get; exact Hschema|].
  intros ok1 st1. destruct (_ && _); [discriminate|].
  apply bind_no_TypeError;
    [apply _matchesEnum_no_TypeError;
       [apply printable_get; exact Hschema | exact Hdocument]|].
  intros ok2 st2. destruct (negb ok2); [discriminate|].
  apply bind_no_TypeError;
    [apply _matchesPattern_no_TypeError;
       [apply printable_get; exact Hschema | exact Hdocument]|].
  intros ok3 st3. destruct (negb ok3); [discriminate|].
  apply bind_no_TypeError.
  { unfold _matchesItems, compareTypes. cbv beta iota.
    destruct (negb _); [|discriminate].
    destruct (getType document =? "array") eqn:Harray; [|discriminate].
    cbn [negb]. apply every_from_no_TypeError. intros x index st' Hx.
    assert (Hprintable : printable x = true).
    { destruct document as [| | | | |addr elems| |]; try destruct Hx.
      exact (printable_elements addr elems Hdocument x Hx). }
    unfold items_callback.
    destruct (_ || _);
      [apply _matchesType_no_TypeError, printable_get; exact Hschema|].
    destruct (getType (get schema "items") =? "object"); [|discriminate].
    apply Hrec; [apply printable_get; exact Hschema | exact Hprintable]. }
  intros ok4 st4. destruct (negb ok4); [discriminate|].
  apply bind_no_TypeError; [|intros [|] st'; discriminate].
  unfold _matchesProperties, compareTypes. cbv beta iota.
  destruct (negb _); [|discriminate].
  destruct (negb _); [discriminate|].
  destruct (_ || _).
  { apply every_from_no_TypeError. intros key index st' _.
    apply _matchesType_no_TypeError, printable_get. exact Hschema. }
  destruct (getType (get schema "properties") =? "object"); [|discriminate].
  apply every_from_no_TypeError. intros key index st' _.
  unfold properties_callback.
  apply Hrec; [|apply printable_get; exact Hdocument].
  apply printable_get, printable_get. exact Hschema.
Qed.

Lemma _isValid_no_TypeError (fuel : nat) :
  forall schema document path st,
    printable schema = true -> printable document = true ->
    fst (_isValid fuel schema document path st) <> Throw_TypeError.
Proof.
  induction fuel as [|fuel IH]; intros schema document path st Hs Hd.
  - discriminate.
  - cbn [_isValid]. apply _isValid_body_no_TypeError; assumption.
Qed.

Lemma _isValid_body_no_SyntaxError (rec : value -> value -> string -> M bool) :
  (forall s d p st,
      patterns_accepted s -> fst (rec s d p st) <> Throw_SyntaxError) ->
  forall schema document path st,
    patterns_accepted schema ->
    fst (_isValid_body rec schema document path st) <> Throw_SyntaxError.
Proof.
  intros Hrec schema document path st Hschema.
  unfold _isValid_body, compareTypes. cbv beta iota.
  destruct (_ || _).
  { apply bind_no_SyntaxError; [apply _matchesType_no_SyntaxError|].
    intros [|] st'; discriminate. }
  destruct (getType schema =? "object") eqn:Hobject; [|discriminate].
  apply String.eqb_eq in Hobject.
  destruct Hschema as [schema Hother | schema _ Hmatches Hitems Hproperties];
    [contradiction|].
  apply bind_no_SyntaxError; [apply _matchesType_no_SyntaxError|].
  intros ok1 st1. destruct (_ && _); [discriminate|].
  apply bind_no_SyntaxError; [apply _matchesEnum_no_SyntaxError|].
  intros ok2 st2. destruct (negb ok2); [discriminate|].
  apply bind_no_SyntaxError;
    [apply _matchesPattern_no_SyntaxError; exact Hmatches|].
  intros ok3 st3. destruct (negb ok3); [discriminate|].
  apply bind_no_SyntaxError.
  { unfold _matchesItems, compareTypes. cbv beta iota.
    destruct (negb _); [|discriminate].
    destruct (negb _); [discriminate|].
    apply every_from_no_SyntaxError. intros x index st' _.
    unfold items_callback.
    destruct (_ || _); [apply _matchesType_no_SyntaxError|].
    destruct (getType (get schema "items") =? "object"); [|discriminate].
    apply Hrec. exact Hitems. }
  intros ok4 st4. destruct (negb ok4); [discriminate|].
  apply bind_no_SyntaxError; [|intros [|] st'; discriminate].
  unfold _matchesProperties, compareTypes. cbv beta iota.
  destruct (negb _); [|discriminate].
  destruct (negb _); [discriminate|].
  destruct (_ || _).
  { apply every_from_no_SyntaxError. intros key index st' _.
    apply _matchesType_no_SyntaxError. }
  destruct (getType (get schema "properties") =? "object"); [|discriminate].
  apply every_from_no_SyntaxError. intros key index st' Hkey.
  unfold properties_callback. apply Hrec. apply Hproperties. exact Hkey.
Qed.

Lemma _isValid_no_SyntaxError (fuel : nat) :
  forall schema document path st,
    patterns_accepted schema ->
    fst (_isValid fuel schema document path st) <> Throw_SyntaxError.
Proof.
  induction fuel as [|fuel IH]; intros schema document path st Hs.
  - discriminate.
  - cbn [_isValid]. apply _isValid_body_no_SyntaxError; assumption.
Qed.


(** *** Checks that cannot pass *)

Lemma bind_early_never_true (m k : M bool) :
  (forall st, fst (k st) <> Normal true) ->
  forall st, fst ((ok <- m ;; if negb ok then ret false else k) st) <> Normal true.
Proof.
  intros Hk st. unfold bind.
  destruct (m st) as [[[|]| | |] st']; simpl; try discriminate. apply Hk.
Qed.

Lemma bind_guarded_never_true (m k : M bool) (guard : bool) :
  (forall st, fst (k st) <> Normal true) ->
  forall st,
    fst ((ok <- m ;; if negb ok && guard then ret false else k) st)
    <> Normal true.
Proof.
  intros Hk st. unfold bind.
  destruct (m st) as [[[|]| | |] st']; simpl; try discriminate; [apply Hk|].
  destruct guard; simpl; [discriminate | apply Hk].
Qed.

Lemma bind_last_never_true (m k : M bool) :
  (forall st, fst (m st) <> Normal true) ->
  forall st, fst ((ok <- m ;; if negb ok then ret false else k) st) <> Normal true.
Proof.
  intros Hm st. unfold bind. specialize (Hm st).
  destruct (m st) as [[[|]| | |] st']; simpl in *; try discriminate.
  exfalso. apply Hm. reflexivity.
Qed.

(** ** Further properties: the theorems *)

(** X1: [_isValid] only appends to [this._errors]: the collection after a
    call is the collection before it followed by what the call logs, and
    neither the returned value nor what is logged depends on the errors
    collected before. *)
Theorem X1_engine_appends_independently_of_history
    (fuel : nat) (schema document : value) (path : string)
    (st : list ValidationError) :
  _isValid fuel schema document path st
  = (fst (_isValid fuel schema document path []),
     (st ++ snd (_isValid fuel schema document path []))%list).
Proof. apply _isValid_framed. Qed.

(** X2: [_isValid] never returns [false] without logging: when a call
    returns [false], at least one error has been appended by it.  So when
    [validate] completes with [isValid] true, [_isValid] has returned
    [true]. *)
Theorem X2_false_is_never_silent
    (fuel : nat) (schema document : value) (path : string)
    (st : list ValidationError) (this : JsonValidator) :
  (fst (_isValid fuel schema document path st) = Normal false ->
   exists e new,
     snd (_isValid fuel schema document path st) = (st ++ e :: new)%list)
  /\ (fst (validate this document) = Normal tt ->
      isValid (snd (validate this document)) = true ->
      fst (_isValid (S (nesting (_schema this))) (_schema this) document "$" [])
      = Normal true).
Proof.
  split.
  - intros Hfalse.
    destruct (_isValid_disciplined fuel schema document path st)
      as (new & Hsnd & _ & Hne).
    destruct new as [|e new]; [exfalso; exact (Hne Hfalse eq_refl)|].
    exists e, new. exact Hsnd.
  - unfold validate, isValid. cbn [_schema _errors].
    destruct (_isValid_disciplined (S (nesting (_schema this))) (_schema this)
                document "$" []) as (new & Hsnd & _ & Hne).
    destruct (_isValid (S (nesting (_schema this))) (_schema this) document
                "$" []) as [[[|]| | |] errors1];
      cbn [fst snd discard _errors] in Hsnd, Hne |- *; try discriminate.
    + reflexivity.
    + intros _ Hvalid. rewrite Hsnd in Hvalid.
      destruct new as [|e new]; [exfalso; exact (Hne eq_refl eq_refl)|].
      discriminate Hvalid.
Qed.

(** X3: every error [validate] leaves in the collection has keyword
    ["type"], ["value"] or ["schema"], a message, no other member set, and
    an [instancePath] that starts with ["$"], or that is the literal
    ["path"] on a ["schema"] error. *)
Theorem X3_errors_are_rooted_and_keyed
    (this : JsonValidator) (document : value) (e : ValidationError) :
  In e (errors (snd (validate this document))) ->
  exists kw p msg,
    e = error_literal kw p msg
    /\ (kw = "type" \/ kw = "value" \/ kw = "schema")
    /\ ((kw = "schema" /\ p = "path") \/ exists suffix, p = "$" ++ suffix).
Proof.
  unfold validate, errors. cbn [_schema _errors].
  destruct (_isValid_disciplined (S (nesting (_schema this))) (_schema this)
              document "$" []) as (new & Hsnd & Hall & _).
  destruct (_isValid (S (nesting (_schema this))) (_schema this) document
              "$" []) as [c errors1].
  cbn [fst snd _errors] in Hsnd |- *. rewrite Hsnd.
  intros Hin. rewrite Forall_forall in Hall. exact (Hall e Hin).
Qed.

(** X4: when no descriptor that [_isValid] reaches in the schema sets
    [optional] (the schema itself, its [items], the members of its
    [properties], and so on), a whole [validate] call logs at most one
    error: [_isValid] passes without a trace, or throws a SyntaxError or a
    TypeError without a trace, or returns [false] with exactly one error,
    since every loop and every descriptor stops at its first failure. *)
Theorem X4_one_error_per_validate_without_optional
    (this : JsonValidator) (document : value) :
  never_optional (_schema this) ->
  let run :=
    _isValid (S (nesting (_schema this))) (_schema this) document "$" [] in
  (run = (Normal true, [])
   \/ run = (Throw_SyntaxError, [])
   \/ run = (Throw_TypeError, [])
   \/ exists e, run = (Normal false, [e]))
  /\ length (errors (snd (validate this document))) <= 1.
Proof.
  intros Hnever run.
  pose proof (_isValid_passes_or_one_error (S (nesting (_schema this)))
                (_schema this) (Nat.lt_succ_diag_r _) Hnever document "$" [])
    as Hrun.
  split; [exact Hrun|].
  unfold validate, errors. cbn [_schema _errors].
  destruct Hrun as [H | [H | [H | [e H]]]]; rewrite H; simpl; lia.
Qed.

(** X5: the depth of the calls of [_isValid] is bounded by the nesting of
    the schema alone: with more fuel than the schema is nested the call
    finishes, whatever the document, and gives what [validate] computes. *)
Theorem X5_recursion_bounded_by_schema_nesting
    (fuel : nat) (schema document : value) (path : string)
    (st : list ValidationError) :
  nesting schema < fuel ->
  fst (_isValid fuel schema document path st) <> Out_of_fuel
  /\ _isValid fuel schema document path st
     = _isValid (S (nesting schema)) schema document path st.
Proof.
  intros Hfuel. split.
  - apply _isValid_enough_fuel. exact Hfuel.
  - apply _isValid_fuel_irrelevant; [exact Hfuel | apply Nat.lt_succ_diag_r].
Qed.

(** X6: of a descriptor, [validate] reads the fields [type], [optional],
    [enum], [matches], [items] and [properties] and no other: two
    descriptors that agree on these six give the same completion and the
    same errors on every document. *)
Theorem X6_only_six_fields_are_read
    (schema other document : value) (prior1 prior2 : list ValidationError) :
  getType schema = "object" -> getType other = "object" ->
  get other "type" = get schema "type" ->
  get other "optional" = get schema "optional" ->
  get other "enum" = get schema "enum" ->
  get other "matches" = get schema "matches" ->
  get other "items" = get schema "items" ->
  get other "properties" = get schema "properties" ->
  fst (validate {| _errors := prior1; _schema := other |} document)
  = fst (validate {| _errors := prior2; _schema := schema |} document)
  /\ errors (snd (validate {| _errors := prior1; _schema := other |} document))
     = errors (snd (validate {| _errors := prior2; _schema := schema |} document)).
Proof.
  intros Hschema Hother Htype Hoptional Henum Hmatches Hitems Hproperties.
  assert (Hrun : _isValid (S (nesting other)) other document "$" []
                 = _isValid (S (nesting schema)) schema document "$" []).
  { simpl.
    rewrite (_isValid_body_reads_six_fields (_isValid (nesting other))
               schema other Hschema Hother Htype Hoptional Henum Hmatches
               Hitems Hproperties document "$" []).
    apply _isValid_body_same_on_children.
    - intros d p. apply _isValid_fuel_irrelevant.
      + rewrite <- Hitems. apply nesting_get; [exact Hother | reflexivity].
      + apply nesting_get; [exact Hschema | reflexivity].
    - intros key d p. apply _isValid_fuel_irrelevant.
      + apply Nat.le_lt_trans with (nesting (get other "properties")).
        * rewrite Hproperties. apply nesting_get_le.
        * apply nesting_get; [exact Hother | reflexivity].
      + apply Nat.le_lt_trans with (nesting (get schema "properties")).
        * apply nesting_get_le.
        * apply nesting_get; [exact Hschema | reflexivity]. }
  unfold validate, errors. cbn [_schema _errors].
  rewrite Hrun.
  destruct (_isValid (S (nesting schema)) schema document "$" []) as [c errors1].
  split; reflexivity.
Qed.

(** X7: a descriptor that defines none of [type], [enum], [matches],
    [items] and [properties] accepts every document: [validate] completes
    normally and leaves no error, whatever other fields the descriptor
    has. *)
Theorem X7_descriptor_without_checks_accepts_all
    (schema document : value) (prior : list ValidationError) :
  getType schema = "object" ->
  get schema "type" = VUndefined ->
  get schema "enum" = VUndefined ->
  get schema "matches" = VUndefined ->
  get schema "items" = VUndefined ->
  get schema "properties" = VUndefined ->
  validate {| _errors := prior; _schema := schema |} document
  = (Normal tt, {| _errors := []; _schema := schema |}).
Proof.
  intros Hschema Htype Henum Hmatches Hitems Hproperties.
  unfold validate. simpl. unfold _isValid_body, compareTypes.
  rewrite Hschema, Htype, Henum, Hmatches, Hitems, Hproperties.
  reflexivity.
Qed.

(** X8: [optional] plays no role for a document that is not [undefined]:
    two descriptors that agree on [type], [enum], [matches], [items] and
    [properties] are treated alike on it, whatever their [optional]. *)
Theorem X8_optional_is_ignored_on_defined_documents
    (fuel : nat) (schema other document : value) (path : string)
    (st : list ValidationError) :
  document <> VUndefined ->
  getType schema = "object" -> getType other = "object" ->
  get other "type" = get schema "type" ->
  get other "enum" = get schema "enum" ->
  get other "matches" = get schema "matches" ->
  get other "items" = get schema "items" ->
  get other "properties" = get schema "properties" ->
  _isValid (S fuel) other document path st
  = _isValid (S fuel) schema document path st.
Proof.
  intros Hdefined Hschema Hother Htype Henum Hmatches Hitems Hproperties.
  simpl. unfold _isValid_body, compareTypes.
  rewrite Hschema, Hother, Htype, Henum, Hmatches, Hitems, Hproperties.
  assert (Htypeof : (typeof document =? "undefined") = false).
  { destruct document as [| | | | | | |name]; try reflexivity;
      [contradiction|].
    simpl. destruct (name =? "__proto__"); reflexivity. }
  rewrite Htypeof. simpl. rewrite !orb_true_r. reflexivity.
Qed.


(** X9: against an [enum] that is an array, the enum check passes exactly
    when some member is [===] to the document; otherwise it logs one
    ["value"] error at the path, or throws a TypeError without logging when
    the members or the document cannot be printed in the message.  So [NaN]
    never passes an enum, and an array or object document passes only if the
    enum holds that very array or object. *)
Theorem X9_enum_membership_is_strict_equality
    (addr : nat) (members : list value) (document : value) (path : string)
    (st : list ValidationError) :
  let failure :=
    match join members ", ", ToString document with
    | Some enumVals, Some text =>
        (Normal false,
         (st ++ [error_literal "value" path
                   ("value must be in enum " ++ enumVals ++ ", but it was "
                    ++ text)])%list)
    | _, _ => (Throw_TypeError, st)
    end in
  ((exists y, In y members /\ strict_equals y document = true) ->
   _matchesEnum (VArray addr members) document path st = (Normal true, st))
  /\ ((forall y, In y members -> strict_equals y document = false) ->
      _matchesEnum (VArray addr members) document path st = failure)
  /\ (document = VNumber S754_nan ->
      _matchesEnum (VArray addr members) document path st = failure
      /\ failure <> (Normal true, st))
  /\ (_matchesEnum (VArray addr members) document path st = (Normal true, st) ->
      match document with
      | VArray a _ => exists elems, In (VArray a elems) members
      | VObject a _ => exists fields, In (VObject a fields) members
      | _ => True
      end).
Proof.
  intros failure.
  assert (Hfailure : failure <> (Normal true, st)).
  { unfold failure. destruct (join members ", "); [|discriminate].
    destruct (ToString document); discriminate. }
  assert (Hrun : _matchesEnum (VArray addr members) document path st
                 = if existsb (fun y => strict_equals y document) members
                   then (Normal true, st)
                   else failure).
  { unfold _matchesEnum, failure. cbn [getType elements String.eqb Ascii.eqb Bool.eqb].
    rewrite indexOf_negative.
    destruct (existsb _ members); [reflexivity|]. cbn [negb].
    unfold bind, converted.
    destruct (join members ", "); [|reflexivity].
    cbn [ret]. destruct (ToString document); reflexivity. }
  assert (Hnone : (forall y, In y members -> strict_equals y document = false) ->
                  existsb (fun y => strict_equals y document) members = false).
  { intros Hall. destruct (existsb _ members) eqn:Hex; [|reflexivity].
    apply existsb_exists in Hex. destruct Hex as (y & Hin & Heq).
    rewrite (Hall y Hin) in Heq. discriminate. }
  split; [|split; [|split]].
  - intros Hsome. rewrite Hrun.
    apply existsb_exists in Hsome. rewrite Hsome. reflexivity.
  - intros Hall. rewrite Hrun, (Hnone Hall). reflexivity.
  - intros HNaN. split; [|exact Hfailure].
    rewrite Hrun, Hnone; [reflexivity|].
    intros y _. rewrite HNaN. apply strict_equals_NaN.
  - rewrite Hrun. destruct (existsb _ members) eqn:Hex.
    + intros _. apply existsb_exists in Hex. destruct Hex as (y & Hin & Heq).
      destruct document as [| | | | |a elems|a fields|name]; try exact I.
      * destruct y; try discriminate. simpl in Heq.
        apply Nat.eqb_eq in Heq. rewrite <- Heq. eexists. exact Hin.
      * destruct y; try discriminate. simpl in Heq.
        apply Nat.eqb_eq in Heq. rewrite <- Heq. eexists. exact Hin.
    + intros Hpass. exfalso. exact (Hfailure Hpass).
Qed.

(** X10: a [type] declared as a sequence accepts a document exactly when
    the document's type tag is a member of the sequence, as a string;
    otherwise it logs one ["type"] error naming the members, or throws a
    TypeError without logging when the members cannot be printed.  A [type]
    that is neither a string nor a sequence accepts every document. *)
Theorem X10_type_sequence_is_membership
    (declared : value) (addr : nat) (allowed : list value) (document : value)
    (path : string) (st : list ValidationError) :
  (In (VString (getType document)) allowed ->
   _matchesType (VArray addr allowed) document path st = (Normal true, st))
  /\ (~ In (VString (getType document)) allowed ->
      _matchesType (VArray addr allowed) document path st
      = match join allowed " | " with
        | Some oneOfType =>
            (Normal false,
             (st ++ [error_literal "type" path
                       ("must be " ++ oneOfType ++ ", but it was "
                        ++ getType document)])%list)
        | None => (Throw_TypeError, st)
        end)
  /\ (getType declared <> "string" -> getType declared <> "array" ->
      _matchesType declared document path st = (Normal true, st)).
Proof.
  split; [|split].
  - intros Hin. unfold _matchesType, compareTypes. simpl.
    rewrite indexOf_negative.
    assert (Hex : existsb (fun y => strict_equals y (VString (getType document)))
                    allowed = true).
    { apply existsb_exists. exists (VString (getType document)).
      split; [exact Hin | apply strict_equals_string; reflexivity]. }
    rewrite Hex. reflexivity.
  - intros Hout. unfold _matchesType, compareTypes. simpl.
    rewrite indexOf_negative.
    destruct (existsb _ allowed) eqn:Hex.
    + apply existsb_exists in Hex. destruct Hex as (y & Hin & Heq).
      apply strict_equals_string in Heq. rewrite Heq in Hin. contradiction.
    + cbn [negb]. destruct (join allowed " | "); reflexivity.
  - intros Hstring Harray.
    destruct declared as [| | | | | | |name]; try reflexivity;
      try (exfalso; apply Hstring; reflexivity);
      try (exfalso; apply Harray; reflexivity).
    unfold _matchesType, compareTypes. cbn [getType] in Hstring |- *.
    destruct (name =? "__proto__"); [reflexivity|].
    exfalso. apply Hstring. reflexivity.
Qed.

(** X11: with [items] a type name, the items check accepts exactly the
    arrays whose elements all have that type, the empty array among them;
    otherwise it logs one ["type"] error, at the index of the first element
    of another type.  A document that is no array gets one ["schema"] error
    at its own path. *)
Theorem X11_items_type_name
    (rec : value -> value -> string -> M bool) (declared : string)
    (document : value) (addr : nat) (elems : list value) (path : string)
    (st : list ValidationError) :
  (Forall (fun x => getType x = declared) elems ->
   _matchesItems rec (VString declared) (VArray addr elems) path st
   = (Normal true, st))
  /\ (forall before x after,
        elems = (before ++ x :: after)%list ->
        Forall (fun y => getType y = declared) before ->
        getType x <> declared ->
        _matchesItems rec (VString declared) (VArray addr elems) path st
        = (Normal false,
           (st ++ [error_literal "type"
                     (path ++ "[" ++ index_text (length before) ++ "]")
                     ("must be string, but it was " ++ getType x)])%list))
  /\ (getType document <> "array" ->
      _matchesItems rec (VString declared) document path st
      = (Normal false,
         (st ++ [error_literal "schema" path
                   "must be an array, but schema defines items."])%list)).
Proof.
  assert (Hpass : forall l index,
             Forall (fun x => getType x = declared) l ->
             every_from (items_callback rec (VString declared) "string" path)
               l index st = (Normal true, st)).
  { intros l index Hall. apply every_from_all_pass. intros x i Hin.
    rewrite Forall_forall in Hall. unfold items_callback. simpl.
    rewrite _matchesType_string, (Hall x Hin), String.eqb_refl. reflexivity. }
  split; [|split].
  - intros Hall. unfold _matchesItems, compareTypes, every. simpl.
    apply Hpass. exact Hall.
  - intros before x after Helems Hbefore Hx. subst elems.
    unfold _matchesItems, compareTypes, every. simpl.
    apply every_from_first_failure with (st1 := st).
    + apply Hpass. exact Hbefore.
    + unfold items_callback. simpl. rewrite _matchesType_string.
      destruct (String.eqb_spec (getType x) declared); [contradiction|].
      reflexivity.
  - intros Hdoc. unfold _matchesItems, compareTypes. simpl.
    destruct (String.eqb_spec (getType document) "array"); [contradiction|].
    reflexivity.
Qed.

(** X12: with [properties] a type name, the properties check goes over the
    keys of the document, not of the schema: it accepts exactly the objects
    whose own values all have that type, the empty object among them, and
    otherwise logs one ["type"] error at the first key whose value has
    another type. *)
Theorem X12_properties_type_name
    (rec : value -> value -> string -> M bool) (declared : string)
    (document : value) (path : string) (st : list ValidationError) :
  getType document = "object" ->
  ((forall key, In key (Object_keys document) ->
                getType (get document key) = declared) ->
   _matchesProperties rec (VString declared) document path st
   = (Normal true, st))
  /\ (forall before key after,
        Object_keys document = (before ++ key :: after)%list ->
        (forall k, In k before -> getType (get document k) = declared) ->
        getType (get document key) <> declared ->
        _matchesProperties rec (VString declared) document path st
        = (Normal false,
           (st ++ [error_literal "type" (path ++ "." ++ key)
                     ("must be string, but it was "
                      ++ getType (get document key))])%list)).
Proof.
  intros Hdoc.
  assert (Hpass : forall l index,
             (forall k, In k l -> getType (get document k) = declared) ->
             every_from
               (fun key (_ : nat) =>
                  _matchesType (VString declared) (get document key)
                    (path ++ "." ++ key))
               l index st = (Normal true, st)).
  { intros l index Hall. apply every_from_all_pass. intros k i Hin.
    rewrite _matchesType_string, (Hall k Hin), String.eqb_refl. reflexivity. }
  split.
  - intros Hall. unfold _matchesProperties, compareTypes, every.
    rewrite Hdoc. simpl. apply Hpass. exact Hall.
  - intros before key after Hkeys Hbefore Hkey.
    unfold _matchesProperties, compareTypes, every.
    rewrite Hdoc, Hkeys. simpl.
    apply every_from_first_failure with (st1 := st).
    + apply Hpass. exact Hbefore.
    + rewrite _matchesType_string.
      destruct (String.eqb_spec (getType (get document key)) declared);
        [contradiction | reflexivity].
Qed.

(** X13: with [properties] a map of sub-schemas, the properties check reads
    the document at the keys of the schema only: members of the document
    that the schema does not list are never looked at, so two object
    documents that agree on the listed keys get the same result. *)
Theorem X13_unlisted_members_are_ignored
    (rec : value -> value -> string -> M bool)
    (properties document1 document2 : value) (path : string)
    (st : list ValidationError) :
  getType properties = "object" ->
  getType document1 = "object" -> getType document2 = "object" ->
  (forall key, In key (Object_keys properties) ->
               get document1 key = get document2 key) ->
  _matchesProperties rec properties document1 path st
  = _matchesProperties rec properties document2 path st.
Proof.
  intros Hproperties Hdoc1 Hdoc2 Hagree.
  unfold _matchesProperties, compareTypes.
  rewrite Hproperties, Hdoc1, Hdoc2. simpl. unfold every.
  apply every_from_same_on. intros key index Hin st'.
  unfold properties_callback. rewrite (Hagree key Hin). reflexivity.
Qed.

(** X14: [compile] replaces the schema and keeps the error collection as it
    is, and the static [validate] gives what [validate] gives on any
    instance compiled with the same schema, whatever that instance has
    validated before; both throw when [JSON.parse] does. *)
Theorem X14_static_validate_is_compile_then_validate
    (this : JsonValidator) (schema document : value) :
  match compile this schema with
  | Some compiled =>
      errors compiled = errors this
      /\ static_validate schema document = Some (validate compiled document)
  | None => static_validate schema document = None
  end.
Proof.
  unfold static_validate, new_JsonValidator, compile.
  destruct schema as [| | | |text| | |]; try (split; reflexivity).
  destruct (JSON_parse text) as [parsed|]; [split; reflexivity | reflexivity].
Qed.

(** X15: what makes [validate] throw.  A SyntaxError needs a [matches]
    whose text [new RegExp] rejects: when every defined [matches] that is
    reached in the schema has a text [new RegExp] accepts, [validate] throws
    none.  A TypeError needs an object with a member [toString] of its own:
    when neither schema nor document holds one, [validate] throws none.
    With both, [validate] completes normally. *)
Theorem X15_what_makes_validate_throw
    (this : JsonValidator) (document : value) :
  (patterns_accepted (_schema this) ->
   fst (validate this document) <> Throw_SyntaxError)
  /\ (printable (_schema this) = true -> printable document = true ->
      fst (validate this document) <> Throw_TypeError)
  /\ (patterns_accepted (_schema this) ->
      printable (_schema this) = true -> printable document = true ->
      fst (validate this document) = Normal tt).
Proof.
  pose proof (validate_finishes this document) as Hfuel.
  pose proof (_isValid_no_SyntaxError (S (nesting (_schema this)))
                (_schema this) document "$" []) as Hsyntax.
  pose proof (_isValid_no_TypeError (S (nesting (_schema this)))
                (_schema this) document "$" []) as Htype.
  unfold validate in Hfuel |- *. cbn [_schema _errors] in Hfuel |- *.
  destruct (_isValid (S (nesting (_schema this))) (_schema this) document "$" [])
    as [[b| | |] errors1]; cbn [fst snd discard] in Hfuel, Hsyntax, Htype |- *.
  - split; [discriminate|]. split; [discriminate | reflexivity].
  - split; [intros Hp; exfalso; exact (Hsyntax Hp eq_refl)|].
    split; [discriminate|].
    intros Hp _ _. exfalso. exact (Hsyntax Hp eq_refl).
  - split; [discriminate|].
    split; [intros Hs Hd; exfalso; exact (Htype Hs Hd eq_refl)|].
    intros _ Hs Hd. exfalso. exact (Htype Hs Hd eq_refl).
  - exfalso. apply Hfuel. reflexivity.
Qed.


(** X16: [optional] does not rescue a missing value from the items and
    properties checks: on a descriptor that defines [items] or
    [properties], [_isValid] never returns [true] for the document
    [undefined], whatever [optional] and the other fields are. *)
Theorem X16_optional_never_rescues_items_or_properties
    (fuel : nat) (schema : value) (path : string) (st : list ValidationError) :
  getType schema = "object" ->
  getType (get schema "items") <> "undefined"
  \/ getType (get schema "properties") <> "undefined" ->
  fst (_isValid (S fuel) schema VUndefined path st) <> Normal true.
Proof.
  intros Hschema Hdefined.
  assert (Hitems :
            getType (get schema "items") <> "undefined" ->
            forall st',
              fst (_matchesItems (_isValid fuel) (get schema "items") VUndefined
                     path st') <> Normal true).
  { intros Hdef st'. unfold _matchesItems, compareTypes.
    destruct (String.eqb_spec (getType (get schema "items")) "undefined");
      [contradiction | discriminate]. }
  assert (Hproperties :
            getType (get schema "properties") <> "undefined" ->
            forall st',
              fst (_matchesProperties (_isValid fuel) (get schema "properties")
                     VUndefined path st') <> Normal true).
  { intros Hdef st'. unfold _matchesProperties, compareTypes.
    destruct (String.eqb_spec (getType (get schema "properties")) "undefined");
      [contradiction | discriminate]. }
  simpl. unfold _isValid_body, compareTypes. rewrite Hschema. simpl.
  apply bind_guarded_never_true.
  apply bind_early_never_true.
  apply bind_early_never_true.
  destruct Hdefined as [Hdef | Hdef].
  - apply bind_last_never_true. apply Hitems. exact Hdef.
  - apply bind_early_never_true.
    apply bind_last_never_true. apply Hproperties. exact Hdef.
Qed.


Lemma _matchesItems_framed (rec : value -> value -> string -> M bool)
    (schema document : value) (path : string) :
  (forall s d p, framed (rec s d p)) ->
  framed (_matchesItems rec schema document path).
Proof.
  intros Hrec. unfold _matchesItems, compareTypes. cbv beta iota.
  destruct (negb _); [|apply framed_ret].
  destruct (negb _); [framed_body|].
  apply every_from_framed. intros x index. unfold items_callback.
  destruct (_ || _); [apply _matchesType_framed|].
  destruct (_ =? _); [apply Hrec | apply framed_ret].
Qed.

Lemma _matchesProperties_framed (rec : value -> value -> string -> M bool)
    (schema document : value) (path : string) :
  (forall s d p, framed (rec s d p)) ->
  framed (_matchesProperties rec schema document path).
Proof.
  intros Hrec. unfold _matchesProperties, compareTypes. cbv beta iota.
  destruct (negb _); [|apply framed_ret].
  destruct (negb _); [framed_body|].
  destruct (_ || _).
  { apply every_from_framed. intros key index. apply _matchesType_framed. }
  destruct (_ =? _); [|apply framed_ret].
  apply every_from_framed. intros key index. apply Hrec.
Qed.

(** What is logged before a continuation runs stays logged after it. *)
Lemma bind_after_logged_failure {B : Type} (m : M bool) (k : bool -> M B)
    (st : list ValidationError) (e : ValidationError) :
  m st = (Normal false, (st ++ [e])%list) ->
  framed (k false) ->
  exists new, snd (bind m k st) = (st ++ e :: new)%list.
Proof.
  intros Hm Hk. unfold bind. rewrite Hm.
  rewrite (Hk (st ++ [e])%list). simpl.
  exists (snd (k false [])). rewrite <- app_assoc. reflexivity.
Qed.

(** X17: a failed type check at the root always shows: when the type check
    of a descriptor fails on the document, [isValid] is false after
    [validate], with the ["type"] error first in the collection, whether or
    not [optional] lets [_isValid] go on. *)
Theorem X17_failed_type_check_always_invalidates
    (schema document : value) (prior : list ValidationError) :
  getType schema = "object" ->
  fst (_matchesType (get schema "type") document "$" []) = Normal false ->
  let this :=
    snd (validate {| _errors := prior; _schema := schema |} document) in
  isValid this = false
  /\ exists e rest,
       errors this = e :: rest
       /\ _matchesType (get schema "type") document "$" []
          = (Normal false, [e]).
Proof.
  intros Hschema Hfails this.
  destruct (_matchesType_cases (get schema "type") document "$" [])
    as [Hpass | [Hthrow | [e Hfail]]].
  { rewrite Hpass in Hfails. discriminate. }
  { rewrite Hthrow in Hfails. discriminate. }
  assert (Hrun : exists new,
             snd (_isValid (S (nesting schema)) schema document "$" [])
             = e :: new).
  { simpl. unfold _isValid_body, compareTypes. rewrite Hschema. simpl.
    apply (bind_after_logged_failure _ _ [] e Hfail).
    simpl. destruct (_ || _); [apply framed_ret|].
    apply framed_bind; [apply _matchesEnum_framed|]. intros ok2.
    destruct (negb ok2); [apply framed_ret|].
    apply framed_bind; [apply _matchesPattern_framed|]. intros ok3.
    destruct (negb ok3); [apply framed_ret|].
    apply framed_bind;
      [apply _matchesItems_framed; intros s d p; apply _isValid_framed|].
    intros ok4. destruct (negb ok4); [apply framed_ret|].
    apply framed_bind;
      [apply _matchesProperties_framed; intros s d p; apply _isValid_framed|].
    intros ok5. destruct (negb ok5); apply framed_ret. }
  destruct Hrun as [new Hrun].
  subst this. unfold validate, isValid, errors. cbn [_schema _errors].
  destruct (_isValid (S (nesting schema)) schema document "$" [])
    as [c errors1].
  cbn [snd _errors] in Hrun |- *. rewrite Hrun.
  split; [reflexivity|]. exists e, new. split; [reflexivity | exact Hfail].
Qed.


End Host.

(** ** Running the validator *)

(** *** The examples of the specification *)

Example string_against_hello (prior : list ValidationError) :
  let this :=
    snd (validate Sample.Number_toString Sample.Function_toString Sample.RegExp_test
           {| _errors := prior;
              _schema := VObject 1 [("type", VString "string")] |}
           (VString "hello")) in
  errors this = [] /\ isValid this = true.
Proof. split; reflexivity. Qed.

Example string_against_5 (prior : list ValidationError) :
  let this :=
    snd (validate Sample.Number_toString Sample.Function_toString Sample.RegExp_test
           {| _errors := prior;
              _schema := VObject 1 [("type", VString "string")] |}
           (Sample.number 5)) in
  errors this = [error_literal "type" "$" "must be string, but it was number"]
  /\ isValid this = false.
Proof. split; reflexivity. Qed.

Example enum_against_4 (prior : list ValidationError) :
  let this :=
    snd (validate Sample.Number_toString Sample.Function_toString Sample.RegExp_test
           {| _errors := prior;
              _schema :=
                VObject 1
                  [("type", VString "number");
                   ("enum", VArray 2 [Sample.number 1; Sample.number 2;
                                      Sample.number 3])] |}
           (Sample.number 4)) in
  errors this
  = [error_literal "value" "$" "value must be in enum 1, 2, 3, but it was 4"]
  /\ isValid this = false.
Proof. split; reflexivity. Qed.

Example property_a_against_x (prior : list ValidationError) :
  let this :=
    snd (validate Sample.Number_toString Sample.Function_toString Sample.RegExp_test
           {| _errors := prior;
              _schema :=
                VObject 1
                  [("type", VString "object");
                   ("properties",
                    VObject 2 [("a", VObject 3 [("type", VString "number")])])] |}
           (VObject 4 [("a", VString "x")])) in
  errors this = [error_literal "type" "$.a" "must be string, but it was string"]
  /\ isValid this = false.
Proof. split; reflexivity. Qed.

Example getType_examples :
  getType VUndefined = "undefined" /\ getType VNull = "null"
  /\ getType (VArray 1 []) = "array" /\ getType (VObject 1 []) = "object"
  /\ getType (VBoolean true) = "boolean"
  /\ getType (Sample.number 3) = "number" /\ getType (VString "s") = "string".
Proof. repeat split. Qed.

(** *** The theorems at concrete inputs *)

Example one_own_error_on_number_enum :
  let schema :=
    VObject 1 [("type", VString "number");
               ("enum", VArray 2 [Sample.number 1; Sample.number 2;
                                  Sample.number 3])] in
  let document := Sample.number 4 in
  one_own_error_at_most Sample.Number_toString Sample.Function_toString
    Sample.RegExp_test schema document
  /\ stops_at_first_failing_check Sample.Number_toString
       Sample.Function_toString Sample.RegExp_test schema document.
Proof.
  intros schema document.
  apply (descriptor_one_own_error_unless_rescued
           Sample.Number_toString Sample.Function_toString Sample.RegExp_test
           schema document).
  - reflexivity.
  - left. reflexivity.
Qed.

Lemma C4_witness :
  let rec := _isValid Sample.Number_toString Sample.Function_toString Sample.RegExp_test 1 in
  let items := VObject 2 [("type", VString "number")] in
  let before := [Sample.number 1; Sample.number 2] in
  let failure :=
    error_literal "type" "$[2]" "must be string, but it was string" in
  getType items <> "undefined"
  /\ _matchesItems Sample.Number_toString Sample.Function_toString rec items (VArray 3 before) "$" []
     = (Normal true, [])
  /\ rec items (VString "x") "$[2]" [] = (Normal false, [failure])
  /\ _matchesItems Sample.Number_toString Sample.Function_toString rec items
       (VArray 3 (before ++ VString "x" :: [Sample.number 4])%list) "$" []
     = (Normal false, [failure]).
Proof.
  intros rec items before failure.
  split; [discriminate|].
  split; [reflexivity|].
  split; [reflexivity|].
  apply (proj1 (C4_items_stop_at_first_failure
                  Sample.Number_toString Sample.Function_toString Sample.RegExp_test)
           rec items 3 before (VString "x") [Sample.number 4] "$" [] [] [failure]).
  - discriminate.
  - reflexivity.
  - reflexivity.
Defined.

Lemma C5_witness :
  let rec := _isValid Sample.Number_toString Sample.Function_toString Sample.RegExp_test 2 in
  let descriptor :=
    VObject 1 [("properties",
                VObject 2 [("a", VObject 3 [("type", VString "number")])])] in
  let document := VString "x" in
  getType (get descriptor "properties") <> "undefined"
  /\ getType document <> "object"
  /\ exists e,
       _matchesProperties Sample.Number_toString Sample.Function_toString rec
         (get descriptor "properties") document "$.deep[3]" []
       = (Normal false, ([] ++ [e])%list)
       /\ keyword e = Some "schema"
       /\ instancePath e = "path"
       /\ e = error_literal "schema" "path"
                "must be an object, but schema defines properties.".
Proof.
  intros rec descriptor document.
  split; [discriminate|].
  split; [discriminate|].
  apply (C5_properties_on_non_object Sample.Number_toString Sample.Function_toString rec descriptor
           document "$.deep[3]" []); discriminate.
Defined.



Lemma C9_witness :
  let schema := Sample.number 5 in
  let document := VString "anything" in
  getType schema <> "string" /\ getType schema <> "array"
  /\ getType schema <> "object"
  /\ _isValid Sample.Number_toString Sample.Function_toString Sample.RegExp_test 1 schema document "$" [] = (Normal true, [])
  /\ validate Sample.Number_toString Sample.Function_toString Sample.RegExp_test
       {| _errors := []; _schema := schema |} document
     = (Normal tt, {| _errors := []; _schema := schema |})
  /\ isValid (snd (validate Sample.Number_toString Sample.Function_toString Sample.RegExp_test
                     {| _errors := []; _schema := schema |} document))
     = true.
Proof.
  intros schema document.
  split; [discriminate|]. split; [discriminate|]. split; [discriminate|].
  apply (C9_fail_open Sample.Number_toString Sample.Function_toString Sample.RegExp_test
           schema document "$" [] [] 0); discriminate.
Defined.

(** *** Where the specification and the code part *)


(** *** The further properties at concrete inputs *)

Lemma X2_witness :
  let schema := VObject 1 [("type", VString "string")] in
  let run :=
    _isValid Sample.Number_toString Sample.Function_toString Sample.RegExp_test 1 schema
      (Sample.number 5) "$" [] in
  let this := {| _errors := []; _schema := schema |} in
  let after :=
    validate Sample.Number_toString Sample.Function_toString Sample.RegExp_test this (VString "hello") in
  (fst run = Normal false /\ exists e new, snd run = ([] ++ e :: new)%list)
  /\ (fst after = Normal tt
      /\ isValid (snd after) = true
      /\ fst (_isValid Sample.Number_toString Sample.Function_toString Sample.RegExp_test
                (S (nesting (_schema this))) (_schema this) (VString "hello")
                "$" [])
         = Normal true).
Proof.
  intros schema run this after. split.
  - split; [reflexivity|].
    apply (proj1 (X2_false_is_never_silent
                    Sample.Number_toString Sample.Function_toString Sample.RegExp_test
                    1 schema (Sample.number 5) "$" [] this)).
    reflexivity.
  - split; [reflexivity|]. split; [reflexivity|].
    apply (proj2 (X2_false_is_never_silent
                    Sample.Number_toString Sample.Function_toString Sample.RegExp_test
                    1 schema (VString "hello") "$" [] this));
      reflexivity.
Defined.

Lemma X3_witness :
  let this :=
    {| _errors := [];
       _schema :=
         VObject 1 [("type", VString "object");
                    ("properties",
                     VObject 2 [("a", VObject 3 [("type", VString "number")])])] |} in
  let e := error_literal "type" "$.a" "must be string, but it was string" in
  In e (errors (snd (validate Sample.Number_toString Sample.Function_toString Sample.RegExp_test this
                       (VObject 4 [("a", VString "x")]))))
  /\ exists kw p msg,
       e = error_literal kw p msg
       /\ (kw = "type" \/ kw = "value" \/ kw = "schema")
       /\ ((kw = "schema" /\ p = "path") \/ exists suffix, p = "$" ++ suffix).
Proof.
  intros this e.
  assert (Hin : In e (errors (snd (validate Sample.Number_toString Sample.Function_toString
                                     Sample.RegExp_test this
                                     (VObject 4 [("a", VString "x")])))))
    by (left; reflexivity).
  split; [exact Hin|].
  exact (X3_errors_are_rooted_and_keyed
           Sample.Number_toString Sample.Function_toString Sample.RegExp_test this
           (VObject 4 [("a", VString "x")]) e Hin).
Defined.

Lemma X4_witness :
  let this :=
    {| _errors := [];
       _schema :=
         VObject 1 [("type", VString "object");
                    ("properties",
                     VObject 2
                       [("optional", VObject 3 [("type", VString "boolean")]);
                        ("size", VObject 4 [("type", VString "number")])])] |} in
  let document := VObject 5 [("optional", VString "x"); ("size", VString "y")] in
  let run :=
    _isValid Sample.Number_toString Sample.Function_toString Sample.RegExp_test
      (S (nesting (_schema this))) (_schema this) document "$" [] in
  never_optional (_schema this)
  /\ (run = (Normal true, [])
      \/ run = (Throw_SyntaxError, [])
      \/ run = (Throw_TypeError, [])
      \/ exists e, run = (Normal false, [e]))
  /\ length (errors (snd (validate Sample.Number_toString
                            Sample.Function_toString Sample.RegExp_test
                            this document))) <= 1.
Proof.
  intros this document run.
  assert (Hleaf : forall addr tag,
             never_optional (VObject addr [("type", VString tag)])).
  { intros addr tag.
    apply never_optional_descriptor;
      [reflexivity | reflexivity | apply never_optional_other; discriminate|].
    intros key []. }
  assert (Hnever : never_optional (_schema this)).
  { apply never_optional_descriptor;
      [reflexivity | reflexivity | apply never_optional_other; discriminate|].
    intros key [Hkey | [Hkey | []]]; rewrite <- Hkey; apply Hleaf. }
  split; [exact Hnever|].
  exact (X4_one_error_per_validate_without_optional
           Sample.Number_toString Sample.Function_toString Sample.RegExp_test
           this document Hnever).
Defined.

Lemma X5_witness :
  let schema :=
    VObject 1 [("type", VString "object");
               ("properties",
                VObject 2 [("a", VObject 3 [("type", VString "number")])])] in
  let document := VObject 4 [("a", VObject 5 [("b", VObject 6 [])])] in
  nesting schema < 7
  /\ fst (_isValid Sample.Number_toString Sample.Function_toString Sample.RegExp_test 7 schema
            document "$" []) <> Out_of_fuel
  /\ _isValid Sample.Number_toString Sample.Function_toString Sample.RegExp_test 7 schema document "$" []
     = _isValid Sample.Number_toString Sample.Function_toString Sample.RegExp_test (S (nesting schema))
         schema document "$" [].
Proof.
  intros schema document.
  assert (Hfuel : nesting schema < 7) by (simpl; lia).
  split; [exact Hfuel|].
  exact (X5_recursion_bounded_by_schema_nesting
           Sample.Number_toString Sample.Function_toString Sample.RegExp_test 7 schema document "$" []
           Hfuel).
Defined.

Lemma X6_witness :
  let schema := VObject 1 [("type", VString "string")] in
  let other :=
    VObject 2 [("required", VBoolean true); ("type", VString "string");
               ("minLength", Sample.number 3)] in
  let document := Sample.number 5 in
  (getType schema = "object" /\ getType other = "object"
   /\ get other "type" = get schema "type"
   /\ get other "optional" = get schema "optional"
   /\ get other "enum" = get schema "enum"
   /\ get other "matches" = get schema "matches"
   /\ get other "items" = get schema "items"
   /\ get other "properties" = get schema "properties")
  /\ fst (validate Sample.Number_toString Sample.Function_toString Sample.RegExp_test
            {| _errors := []; _schema := other |} document)
     = fst (validate Sample.Number_toString Sample.Function_toString Sample.RegExp_test
              {| _errors := []; _schema := schema |} document)
  /\ errors (snd (validate Sample.Number_toString Sample.Function_toString Sample.RegExp_test
                    {| _errors := []; _schema := other |} document))
     = errors (snd (validate Sample.Number_toString Sample.Function_toString Sample.RegExp_test
                      {| _errors := []; _schema := schema |} document)).
Proof.
  intros schema other document.
  split; [repeat split|].
  apply (X6_only_six_fields_are_read
           Sample.Number_toString Sample.Function_toString Sample.RegExp_test
           schema other document [] []); reflexivity.
Defined.

Lemma X7_witness :
  let schema :=
    VObject 1 [("required", VArray 2 [VString "a"]);
               ("minimum", Sample.number 3)] in
  (getType schema = "object"
   /\ get schema "type" = VUndefined
   /\ get schema "enum" = VUndefined
   /\ get schema "matches" = VUndefined
   /\ get schema "items" = VUndefined
   /\ get schema "properties" = VUndefined)
  /\ validate Sample.Number_toString Sample.Function_toString Sample.RegExp_test
       {| _errors := []; _schema := schema |} (Sample.number 1)
     = (Normal tt, {| _errors := []; _schema := schema |}).
Proof.
  intros schema.
  split; [repeat split|].
  apply (X7_descriptor_without_checks_accepts_all
           Sample.Number_toString Sample.Function_toString Sample.RegExp_test
           schema (Sample.number 1) []); reflexivity.
Defined.

Lemma X8_witness :
  let schema := VObject 1 [("type", VString "string")] in
  let other := VObject 2 [("optional", VBoolean true); ("type", VString "string")] in
  let document := Sample.number 5 in
  (document <> VUndefined
   /\ getType schema = "object" /\ getType other = "object"
   /\ get other "type" = get schema "type"
   /\ get other "enum" = get schema "enum"
   /\ get other "matches" = get schema "matches"
   /\ get other "items" = get schema "items"
   /\ get other "properties" = get schema "properties")
  /\ _isValid Sample.Number_toString Sample.Function_toString Sample.RegExp_test 1 other document "$" []
     = _isValid Sample.Number_toString Sample.Function_toString Sample.RegExp_test 1 schema document
         "$" [].
Proof.
  intros schema other document.
  split; [split; [discriminate | repeat split]|].
  apply (X8_optional_is_ignored_on_defined_documents
           Sample.Number_toString Sample.Function_toString Sample.RegExp_test
           0 schema other document "$" []);
    try reflexivity; discriminate.
Defined.

Lemma X9_witness :
  let members := [Sample.number 1; Sample.number 2; Sample.number 3] in
  let run document :=
    _matchesEnum Sample.Number_toString Sample.Function_toString
      (VArray 1 members) document "$" [] in
  let unprintable := VObject 9 [("toString", Sample.number 1)] in
  ((exists y, In y members /\ strict_equals y (Sample.number 2) = true)
   /\ run (Sample.number 2) = (Normal true, []))
  /\ ((forall y, In y members -> strict_equals y (Sample.number 4) = false)
      /\ run (Sample.number 4)
         = (Normal false,
            [error_literal "value" "$"
               "value must be in enum 1, 2, 3, but it was 4"]))
  /\ ((forall y, In y members -> strict_equals y unprintable = false)
      /\ run unprintable = (Throw_TypeError, []))
  /\ (run (VNumber S754_nan)
      = (Normal false,
         [error_literal "value" "$"
            "value must be in enum 1, 2, 3, but it was NaN"]))
  /\ (_matchesEnum Sample.Number_toString Sample.Function_toString
        (VArray 1 [VArray 7 [VString "a"]]) (VArray 7 [VString "a"]) "$" []
      = (Normal true, [])
      /\ exists elems, In (VArray 7 elems) [VArray 7 [VString "a"]]).
Proof.
  intros members run unprintable.
  assert (Hsome : exists y,
             In y members /\ strict_equals y (Sample.number 2) = true).
  { exists (Sample.number 2). split; [right; left; reflexivity | reflexivity]. }
  assert (Hnone : forall y,
             In y members -> strict_equals y (Sample.number 4) = false).
  { intros y [H | [H | [H | []]]]; rewrite <- H; reflexivity. }
  assert (Hnone' : forall y,
             In y members -> strict_equals y unprintable = false).
  { intros y [H | [H | [H | []]]]; rewrite <- H; reflexivity. }
  split; [|split; [|split; [|split]]].
  - split; [exact Hsome|].
    exact (proj1 (X9_enum_membership_is_strict_equality
                    Sample.Number_toString Sample.Function_toString
                    1 members (Sample.number 2) "$" [])
             Hsome).
  - split; [exact Hnone|].
    exact (proj1 (proj2 (X9_enum_membership_is_strict_equality
                           Sample.Number_toString Sample.Function_toString
                           1 members (Sample.number 4) "$" []))
             Hnone).
  - split; [exact Hnone'|].
    exact (proj1 (proj2 (X9_enum_membership_is_strict_equality
                           Sample.Number_toString Sample.Function_toString
                           1 members unprintable "$" []))
             Hnone').
  - exact (proj1 (proj1 (proj2 (proj2 (X9_enum_membership_is_strict_equality
                                         Sample.Number_toString
                                         Sample.Function_toString 1 members
                                         (VNumber S754_nan) "$" [])))
                    eq_refl)).
  - split; [reflexivity|].
    exact (proj2 (proj2 (proj2 (X9_enum_membership_is_strict_equality
                                  Sample.Number_toString
                                  Sample.Function_toString 1
                                  [VArray 7 [VString "a"]]
                                  (VArray 7 [VString "a"]) "$" [])))
             eq_refl).
Defined.

Lemma X10_witness :
  let allowed := [VString "number"; VString "null"] in
  let unprintable :=
    [VString "number"; VObject 9 [("toString", Sample.number 1)]] in
  (In (VString (getType VNull)) allowed
   /\ _matchesType Sample.Number_toString Sample.Function_toString
        (VArray 1 allowed) VNull "$" []
      = (Normal true, []))
  /\ (~ In (VString (getType (VString "x"))) allowed
      /\ _matchesType Sample.Number_toString Sample.Function_toString
           (VArray 1 allowed) (VString "x") "$" []
         = (Normal false,
            [error_literal "type" "$"
               "must be number | null, but it was string"]))
  /\ (~ In (VString (getType (VString "x"))) unprintable
      /\ _matchesType Sample.Number_toString Sample.Function_toString
           (VArray 1 unprintable) (VString "x") "$" []
         = (Throw_TypeError, []))
  /\ (getType (Sample.number 5) <> "string"
      /\ getType (Sample.number 5) <> "array"
      /\ _matchesType Sample.Number_toString Sample.Function_toString
           (Sample.number 5) (VString "x") "$" []
         = (Normal true, [])).
Proof.
  intros allowed unprintable.
  assert (Hin : In (VString (getType VNull)) allowed)
    by (right; left; reflexivity).
  assert (Hout : ~ In (VString (getType (VString "x"))) allowed).
  { intros [H | [H | []]]; discriminate H. }
  assert (Hout' : ~ In (VString (getType (VString "x"))) unprintable).
  { intros [H | [H | []]]; discriminate H. }
  split; [|split; [|split]].
  - split; [exact Hin|].
    exact (proj1 (X10_type_sequence_is_membership
                    Sample.Number_toString Sample.Function_toString
                    VNull 1 allowed VNull "$" [])
             Hin).
  - split; [exact Hout|].
    exact (proj1 (proj2 (X10_type_sequence_is_membership
                           Sample.Number_toString Sample.Function_toString
                           VNull 1 allowed (VString "x") "$" []))
             Hout).
  - split; [exact Hout'|].
    exact (proj1 (proj2 (X10_type_sequence_is_membership
                           Sample.Number_toString Sample.Function_toString
                           VNull 1 unprintable (VString "x") "$" []))
             Hout').
  - split; [discriminate|]. split; [discriminate|].
    apply (proj2 (proj2 (X10_type_sequence_is_membership
                           Sample.Number_toString Sample.Function_toString
                           (Sample.number 5) 1 allowed (VString "x") "$" [])));
      discriminate.
Defined.

Lemma X11_witness :
  let rec := _isValid Sample.Number_toString Sample.Function_toString Sample.RegExp_test 1 in
  let run document :=
    _matchesItems Sample.Number_toString Sample.Function_toString rec (VString "number") document
      "$.list" [] in
  (Forall (fun x => getType x = "number") [Sample.number 1; Sample.number 2]
   /\ run (VArray 1 [Sample.number 1; Sample.number 2]) = (Normal true, []))
  /\ (Forall (fun y => getType y = "number") [Sample.number 1]
      /\ getType (VString "x") <> "number"
      /\ run (VArray 1 [Sample.number 1; VString "x"; VNull])
         = (Normal false,
            [error_literal "type" "$.list[1]"
               "must be string, but it was string"]))
  /\ (getType (VString "x") <> "array"
      /\ run (VString "x")
         = (Normal false,
            [error_literal "schema" "$.list"
               "must be an array, but schema defines items."])).
Proof.
  intros rec run.
  assert (Hall : Forall (fun x => getType x = "number")
                   [Sample.number 1; Sample.number 2])
    by (repeat constructor).
  assert (Hbefore : Forall (fun y => getType y = "number") [Sample.number 1])
    by (repeat constructor).
  split; [|split].
  - split; [exact Hall|].
    exact (proj1 (X11_items_type_name Sample.Number_toString Sample.Function_toString rec "number"
                    VNull 1 [Sample.number 1; Sample.number 2] "$.list" [])
             Hall).
  - split; [exact Hbefore|]. split; [discriminate|].
    apply (proj1 (proj2 (X11_items_type_name Sample.Number_toString Sample.Function_toString rec
                           "number" VNull 1
                           [Sample.number 1; VString "x"; VNull] "$.list" []))
             [Sample.number 1] (VString "x") [VNull]);
      [reflexivity | exact Hbefore | discriminate].
  - split; [discriminate|].
    apply (proj2 (proj2 (X11_items_type_name Sample.Number_toString Sample.Function_toString rec
                           "number" (VString "x") 1 [] "$.list" []))).
    discriminate.
Defined.

Lemma X12_witness :
  let rec := _isValid Sample.Number_toString Sample.Function_toString Sample.RegExp_test 1 in
  let document :=
    VObject 1 [("a", Sample.number 1); ("b", VString "x"); ("c", VNull)] in
  getType document = "object"
  /\ ((forall key, In key (Object_keys (VObject 2 [("a", Sample.number 1)])) ->
                   getType (get (VObject 2 [("a", Sample.number 1)]) key)
                   = "number")
      /\ _matchesProperties Sample.Number_toString Sample.Function_toString rec (VString "number")
           (VObject 2 [("a", Sample.number 1)]) "$" []
         = (Normal true, []))
  /\ (Object_keys document = (["a"] ++ "b" :: ["c"])%list
      /\ (forall k, In k ["a"] -> getType (get document k) = "number")
      /\ getType (get document "b") <> "number"
      /\ _matchesProperties Sample.Number_toString Sample.Function_toString rec (VString "number")
           document "$" []
         = (Normal false,
            [error_literal "type" "$.b" "must be string, but it was string"])).
Proof.
  intros rec document.
  assert (Hall : forall key,
             In key (Object_keys (VObject 2 [("a", Sample.number 1)])) ->
             getType (get (VObject 2 [("a", Sample.number 1)]) key) = "number").
  { intros key [H | []]. subst key. reflexivity. }
  assert (Hbefore : forall k, In k ["a"] -> getType (get document k) = "number").
  { intros k [H | []]. subst k. reflexivity. }
  split; [reflexivity|]. split.
  - split; [exact Hall|].
    exact (proj1 (X12_properties_type_name Sample.Number_toString Sample.Function_toString rec "number"
                    (VObject 2 [("a", Sample.number 1)]) "$" [] eq_refl)
             Hall).
  - split; [reflexivity|]. split; [exact Hbefore|]. split; [discriminate|].
    apply (proj2 (X12_properties_type_name Sample.Number_toString Sample.Function_toString rec "number"
                    document "$" [] eq_refl)
             ["a"] "b" ["c"]);
      [reflexivity | exact Hbefore | discriminate].
Defined.

Lemma X13_witness :
  let rec := _isValid Sample.Number_toString Sample.Function_toString Sample.RegExp_test 1 in
  let properties := VObject 1 [("a", VObject 2 [("type", VString "number")])] in
  let document1 := VObject 3 [("a", Sample.number 1); ("extra", VString "y")] in
  let document2 := VObject 4 [("a", Sample.number 1)] in
  (getType properties = "object"
   /\ getType document1 = "object" /\ getType document2 = "object"
   /\ forall key, In key (Object_keys properties) ->
                  get document1 key = get document2 key)
  /\ _matchesProperties Sample.Number_toString Sample.Function_toString rec properties document1 "$" []
     = _matchesProperties Sample.Number_toString Sample.Function_toString rec properties document2 "$" [].
Proof.
  intros rec properties document1 document2.
  assert (Hagree : forall key, In key (Object_keys properties) ->
                               get document1 key = get document2 key).
  { intros key [H | []]. subst key. reflexivity. }
  split; [repeat split; exact Hagree|].
  apply (X13_unlisted_members_are_ignored Sample.Number_toString Sample.Function_toString rec
           properties document1 document2 "$" []);
    [reflexivity | reflexivity | reflexivity | exact Hagree].
Defined.

Lemma X15_witness :
  let this :=
    {| _errors := [];
       _schema :=
         VObject 1 [("type", VArray 2 [VString "string"; VString "null"]);
                    ("matches", VString "b")] |} in
  let document := VString "abc" in
  patterns_accepted Sample.Number_toString Sample.Function_toString
    Sample.RegExp_test (_schema this)
  /\ printable (_schema this) = true
  /\ printable document = true
  /\ fst (validate Sample.Number_toString Sample.Function_toString
            Sample.RegExp_test this document)
     <> Throw_SyntaxError
  /\ fst (validate Sample.Number_toString Sample.Function_toString
            Sample.RegExp_test this document)
     <> Throw_TypeError
  /\ fst (validate Sample.Number_toString Sample.Function_toString
            Sample.RegExp_test this document)
     = Normal tt.
Proof.
  intros this document.
  assert (Haccepted : patterns_accepted Sample.Number_toString
                        Sample.Function_toString Sample.RegExp_test
                        (_schema this)).
  { apply patterns_accepted_descriptor.
    - reflexivity.
    - intros _ source _ subject. unfold Sample.RegExp_test.
      destruct (index 0 source subject); discriminate.
    - apply patterns_accepted_other. discriminate.
    - intros key []. }
  split; [exact Haccepted|]. split; [reflexivity|]. split; [reflexivity|].
  split; [|split].
  - exact (proj1 (X15_what_makes_validate_throw
                    Sample.Number_toString Sample.Function_toString
                    Sample.RegExp_test this document)
             Haccepted).
  - exact (proj1 (proj2 (X15_what_makes_validate_throw
                           Sample.Number_toString Sample.Function_toString
                           Sample.RegExp_test this document))
             eq_refl eq_refl).
  - exact (proj2 (proj2 (X15_what_makes_validate_throw
                           Sample.Number_toString Sample.Function_toString
                           Sample.RegExp_test this document))
             Haccepted eq_refl eq_refl).
Defined.

Lemma X16_witness :
  let schema :=
    VObject 1 [("type", VString "array"); ("optional", VBoolean true);
               ("items", VObject 2 [("type", VString "number")])] in
  getType schema = "object"
  /\ (getType (get schema "items") <> "undefined"
      \/ getType (get schema "properties") <> "undefined")
  /\ fst (_isValid Sample.Number_toString Sample.Function_toString Sample.RegExp_test 2 schema
            VUndefined "$" [])
     <> Normal true.
Proof.
  intros schema.
  assert (Hdefined : getType (get schema "items") <> "undefined"
                     \/ getType (get schema "properties") <> "undefined")
    by (left; discriminate).
  split; [reflexivity|]. split; [exact Hdefined|].
  exact (X16_optional_never_rescues_items_or_properties
           Sample.Number_toString Sample.Function_toString Sample.RegExp_test 1 schema "$" []
           eq_refl Hdefined).
Defined.

Lemma X17_witness :
  let schema :=
    VObject 1 [("type", VString "string"); ("optional", VBoolean true)] in
  let this :=
    snd (validate Sample.Number_toString Sample.Function_toString Sample.RegExp_test
           {| _errors := []; _schema := schema |} VUndefined) in
  getType schema = "object"
  /\ fst (_matchesType Sample.Number_toString Sample.Function_toString (get schema "type") VUndefined
            "$" []) = Normal false
  /\ isValid this = false
  /\ exists e rest,
       errors this = e :: rest
       /\ _matchesType Sample.Number_toString Sample.Function_toString (get schema "type") VUndefined
            "$" []
          = (Normal false, [e]).
Proof.
  intros schema this.
  split; [reflexivity|]. split; [reflexivity|].
  apply (X17_failed_type_check_always_invalidates
           Sample.Number_toString Sample.Function_toString Sample.RegExp_test schema VUndefined []);
    reflexivity.
Defined.
